(** * Seat reservation ledger of the movie ticket system

    A shallow embedding of [movies/models.py], [movies/serializers.py] and
    [movies/views.py]: the [Show] and [Booking] tables, the seat-number
    serializer, and the two views [BookSeatView.post] and
    [CancelBookingView.post], followed by the properties of the ledger. *)

From Stdlib Require Import ZArith.
From stdpp Require Import gmap strings fin_maps.

Local Open Scope Z_scope.

(** ** models.py *)

(** [django.contrib.auth.models.User], as far as the views read it.  Django
    compares model instances by primary key. *)
Record User := { user_id : Z; username : string }.

Record Movie := {
  movie_id : Z;
  title : string;
  duration_minutes : Z;
  movie_created_at : Z
}.

(** [Show]: the related [movie] object is carried along; the primary key of a
    show is its key in the [shows] table. *)
Record Show := {
  movie : Movie;
  screen_name : string;
  date_time : Z;
  total_seats : Z;
  show_created_at : Z
}.

(** [Booking.STATUS_CHOICES] *)
Inductive Status := booked | cancelled.

(** [Booking]: [show] is the foreign key (a primary key of [shows]); [user] is
    the related user object. *)
Record Booking := {
  user : User;
  show : Z;
  seat_number : Z;
  status : Status;
  created_at : Z;
  updated_at : Z
}.

#[global] Instance Status_eq_dec : EqDecision Status.
Proof. solve_decision. Defined.

(** The store: the two tables the views touch, each keyed by primary key, and
    the auto-increment counter of the booking table. *)
Record Db := {
  shows : gmap Z Show;
  bookings : gmap Z Booking;
  booking_seq : Z
}.

(** The database exception that reaches the handlers of the views. *)
Inductive DbError := IntegrityError.

(** ** The ORM calls used by the views *)

(** [Booking.objects.filter(show=show, seat_number=seat_number, status=st)] *)
Definition filter_show_seat_status (sid seat : Z) (st : Status)
    (tbl : gmap Z Booking) : gmap Z Booking :=
  filter (λ kv, show kv.2 = sid ∧ seat_number kv.2 = seat ∧ status kv.2 = st) tbl.

(** [Booking.objects.filter(show=show, status=st)] *)
Definition filter_show_status (sid : Z) (st : Status)
    (tbl : gmap Z Booking) : gmap Z Booking :=
  filter (λ kv, show kv.2 = sid ∧ status kv.2 = st) tbl.

(** [QuerySet.exists()] and [QuerySet.count()] *)
Definition exists_ (q : gmap Z Booking) : bool := bool_decide (q ≠ ∅).
Definition count (q : gmap Z Booking) : Z := Z.of_nat (size q).

(** [Meta.unique_together = ["show", "seat_number", "status"]]: the rows other
    than [self_id] that carry the same triple as [b]. *)
Definition unique_together_conflicts (self_id : option Z) (b : Booking)
    (tbl : gmap Z Booking) : gmap Z Booking :=
  filter (λ kv, Some kv.1 ≠ self_id)
         (filter_show_seat_status (show b) (seat_number b) (status b) tbl).

(** [Booking.objects.create(user=.., show=.., seat_number=.., status=..)]:
    [created_at] ([auto_now_add]) and [updated_at] ([auto_now]) are both set to
    the current time; the row gets the next primary key.  The insert is
    refused when the key is taken or the unique constraint is violated. *)
Definition Booking_create (u : User) (sid seat : Z) (st : Status) (now : Z)
    (db : Db) : DbError + (Z * Booking * Db) :=
  let b := {| user := u; show := sid; seat_number := seat; status := st;
              created_at := now; updated_at := now |} in
  let pk := booking_seq db in
  if decide (is_Some (bookings db !! pk)) then inl IntegrityError
  else if exists_ (unique_together_conflicts None b (bookings db))
  then inl IntegrityError
  else inr (pk, b, {| shows := shows db;
                      bookings := <[pk := b]> (bookings db);
                      booking_seq := pk + 1 |}).

(** [booking.save()] on a row that exists: [updated_at] is refreshed
    ([auto_now]), every column is written back, and the unique constraint is
    checked against the other rows. *)
Definition Booking_save (pk : Z) (b : Booking) (now : Z) (db : Db)
    : DbError + (Booking * Db) :=
  let b' := {| user := user b; show := show b; seat_number := seat_number b;
               status := status b; created_at := created_at b;
               updated_at := now |} in
  if exists_ (unique_together_conflicts (Some pk) b' (bookings db))
  then inl IntegrityError
  else inr (b', {| shows := shows db;
                   bookings := <[pk := b']> (bookings db);
                   booking_seq := booking_seq db |}).

(** ** serializers.py *)

(** The [seat_number] entry of the request body, as the integer field reads
    it: absent, not an integer, or the integer [n]. *)
Inductive SeatField :=
  | FieldMissing
  | FieldNotInteger
  | FieldInt (n : Z).

(** The validation messages of [BookingCreateSerializer]. *)
Inductive SeatError :=
  | Required                 (* "This field is required." *)
  | InvalidInteger           (* "A valid integer is required." *)
  | MinValue                 (* "Ensure this value is greater than or equal to 1." *)
  | InvalidShow              (* "Invalid show" *)
  | OutOfRange (total : Z).  (* "Seat number must be between 1 and {total_seats}" *)

(** [serializers.IntegerField(min_value=1)] *)
Definition IntegerField_min_value_1 (f : SeatField) : SeatError + Z :=
  match f with
  | FieldMissing => inl Required
  | FieldNotInteger => inl InvalidInteger
  | FieldInt n => if decide (n < 1) then inl MinValue else inr n
  end.

(** [class BookingCreateSerializer(serializers.Serializer)] *)
Module BookingCreateSerializer.

(** [seat_number = serializers.IntegerField(min_value=1)] *)
Definition seat_number_field := IntegerField_min_value_1.

(** [validate_seat_number(self, value)], with [show_id] taken from the
    serializer's context. *)
Definition validate_seat_number (show_id value : Z) (db : Db) : SeatError + Z :=
  match shows db !! show_id with
  | Some sh =>
      if decide (value > total_seats sh) then inl (OutOfRange (total_seats sh))
      else inr value
  | None => inl InvalidShow
  end.

(** [is_valid()] followed by [validated_data["seat_number"]]: the field
    runs first, and only a value it has validated is handed to
    [validate_seat_number]. *)
Definition is_valid (show_id : Z) (f : SeatField) (db : Db) : SeatError + Z :=
  match seat_number_field f with
  | inl e => inl e
  | inr n => validate_seat_number show_id n db
  end.

End BookingCreateSerializer.

(** The representation of a show: the fields of [ShowSerializer.Meta]. *)
Record ShowData := {
  sd_id : Z;
  sd_movie : Z;
  sd_movie_title : string;
  sd_screen_name : string;
  sd_date_time : Z;
  sd_total_seats : Z;
  sd_available_seats : Z;
  sd_created_at : Z
}.

(** [class ShowSerializer(serializers.ModelSerializer)] *)
Module ShowSerializer.

Definition get_available_seats (sid : Z) (sh : Show) (db : Db) : Z :=
  total_seats sh - count (filter_show_status sid booked (bookings db)).

(** [ShowSerializer(obj).data] *)
Definition data (sid : Z) (sh : Show) (db : Db) : ShowData :=
  {| sd_id := sid;
     sd_movie := movie_id (movie sh);
     sd_movie_title := title (movie sh);
     sd_screen_name := screen_name sh;
     sd_date_time := date_time sh;
     sd_total_seats := total_seats sh;
     sd_available_seats := get_available_seats sid sh db;
     sd_created_at := show_created_at sh |}.

End ShowSerializer.

(** The representation of a booking.  [BookingSerializer] derives from
    [serializers.Serializer], so its fields are the two it declares,
    [show_details] and [username]; [show_details] is null when the booking's
    show cannot be loaded. *)
Record BookingData := {
  show_details : option ShowData;
  bd_username : string
}.

(** [class BookingSerializer(serializers.Serializer)] *)
Module BookingSerializer.

(** [BookingSerializer(booking).data]; [sh] is [booking.show], absent when
    the row of the show does not exist: the framework's attribute lookup
    catches [ObjectDoesNotExist] and the nested field is rendered as null. *)
Definition data (b : Booking) (sh : option Show) (db : Db) : BookingData :=
  {| show_details := (λ sh', ShowSerializer.data (show b) sh' db) <$> sh;
     bd_username := username (user b) |}.

End BookingSerializer.

(** ** views.py *)

(** Bodies of the responses of the two views. *)
Inductive Body :=
  | ErrShowNotFound                     (* {"error": "Show not found"} *)
  | SerializerErrors (e : SeatError)    (* serializer.errors *)
  | ErrSeatTaken (seat : Z)             (* {"error": f"Seat {seat_number} is already booked"} *)
  | ErrFullyBooked                      (* {"error": "Show is fully booked"} *)
  | ErrBookingFailed (e : DbError)      (* {"error": f"Booking failed: {str(e)}"} *)
  | MsgBookingSuccessful (d : BookingData)
  | ErrBookingNotFound                  (* {"error": "Booking not found"} *)
  | ErrNotOwner                         (* {"error": "You can only cancel your own bookings"} *)
  | ErrIsCancelled                      (* {"error": "Booking is already cancelled"} *)
  | ErrCancellationFailed (e : DbError) (* {"error": f"Cancellation failed: {str(e)}"} *)
  | MsgBookingCancelled (d : BookingData).

Record Response := { status_code : Z; data : Body }.

Definition HTTP_200_OK := 200.
Definition HTTP_201_CREATED := 201.
Definition HTTP_400_BAD_REQUEST := 400.
Definition HTTP_403_FORBIDDEN := 403.
Definition HTTP_404_NOT_FOUND := 404.
Definition HTTP_500_INTERNAL_SERVER_ERROR := 500.

(** [BookSeatView.post(request, show_id)]; [u] is [request.user], [f] the
    [seat_number] entry of [request.data], [now] the clock.  Every exit
    before the insert leaves the store as it was; an exception inside
    [transaction.atomic()] rolls the transaction back. *)
Module BookSeatView.
Definition post (u : User) (show_id : Z) (f : SeatField) (now : Z) (db : Db)
    : Response * Db :=
  match shows db !! show_id with
  | None => ({| status_code := HTTP_404_NOT_FOUND; data := ErrShowNotFound |}, db)
  | Some sh =>
    match BookingCreateSerializer.is_valid show_id f db with
    | inl e => ({| status_code := HTTP_400_BAD_REQUEST; data := SerializerErrors e |}, db)
    | inr seat =>
      if exists_ (filter_show_seat_status show_id seat booked (bookings db))
      then ({| status_code := HTTP_400_BAD_REQUEST; data := ErrSeatTaken seat |}, db)
      else if decide (count (filter_show_status show_id booked (bookings db))
                      >= total_seats sh)
      then ({| status_code := HTTP_400_BAD_REQUEST; data := ErrFullyBooked |}, db)
      else
        match Booking_create u show_id seat booked now db with
        | inl e => ({| status_code := HTTP_500_INTERNAL_SERVER_ERROR;
                       data := ErrBookingFailed e |}, db)
        | inr (_, b, db') =>
            ({| status_code := HTTP_201_CREATED;
                data := MsgBookingSuccessful (BookingSerializer.data b (Some sh) db') |}, db')
        end
    end
  end.

End BookSeatView.

(** [CancelBookingView.post(request, booking_id)].  After [save()] the
    serializer loads [booking.show] from the store. *)
Module CancelBookingView.
Definition post (u : User) (booking_id : Z) (now : Z) (db : Db)
    : Response * Db :=
  match bookings db !! booking_id with
  | None => ({| status_code := HTTP_404_NOT_FOUND; data := ErrBookingNotFound |}, db)
  | Some b =>
    if decide (user_id (user b) ≠ user_id u)
    then ({| status_code := HTTP_403_FORBIDDEN; data := ErrNotOwner |}, db)
    else if decide (status b = cancelled)
    then ({| status_code := HTTP_400_BAD_REQUEST; data := ErrIsCancelled |}, db)
    else
      let b1 := {| user := user b; show := show b; seat_number := seat_number b;
                   status := cancelled; created_at := created_at b;
                   updated_at := updated_at b |} in
      match Booking_save booking_id b1 now db with
      | inl e => ({| status_code := HTTP_500_INTERNAL_SERVER_ERROR;
                     data := ErrCancellationFailed e |}, db)
      | inr (b', db') =>
          ({| status_code := HTTP_200_OK;
              data := MsgBookingCancelled
                        (BookingSerializer.data b' (shows db' !! show b') db') |}, db')
      end
  end.

End CancelBookingView.

(** The two operations of the reservation engine. *)
Abbreviation book := BookSeatView.post.
Abbreviation cancel := CancelBookingView.post.

(** ** Sequences of requests *)

Inductive Op :=
  | Book (u : User) (show_id : Z) (f : SeatField) (now : Z)
  | Cancel (u : User) (booking_id : Z) (now : Z).

Definition step (o : Op) (db : Db) : Response * Db :=
  match o with
  | Book u sid f now => book u sid f now db
  | Cancel u bid now => cancel u bid now db
  end.

(** The store after serving the requests one after the other. *)
Fixpoint run (ops : list Op) (db : Db) : Db :=
  match ops with
  | [] => db
  | o :: ops' => run ops' (step o db).2
  end.

(** The responses, in order. *)
Fixpoint responses (ops : list Op) (db : Db) : list Response :=
  match ops with
  | [] => []
  | o :: ops' => (step o db).1 :: responses ops' (step o db).2
  end.

(** A store with the given shows and no booking yet. *)
Definition init (shs : gmap Z Show) : Db :=
  {| shows := shs; bookings := ∅; booking_seq := 1 |}.

(** ** The outcomes of the two operations

    Names for the responses by which the views report the outcomes of booking
    and cancelling. *)

Definition ShowNotFound : Response :=
  {| status_code := HTTP_404_NOT_FOUND; data := ErrShowNotFound |}.
Definition ValidationError (e : SeatError) : Response :=
  {| status_code := HTTP_400_BAD_REQUEST; data := SerializerErrors e |}.
Definition SeatAlreadyBooked (seat : Z) : Response :=
  {| status_code := HTTP_400_BAD_REQUEST; data := ErrSeatTaken seat |}.
Definition ShowFull : Response :=
  {| status_code := HTTP_400_BAD_REQUEST; data := ErrFullyBooked |}.
Definition BookingFailed (e : DbError) : Response :=
  {| status_code := HTTP_500_INTERNAL_SERVER_ERROR; data := ErrBookingFailed e |}.
Definition BookingNotFound : Response :=
  {| status_code := HTTP_404_NOT_FOUND; data := ErrBookingNotFound |}.
Definition Forbidden : Response :=
  {| status_code := HTTP_403_FORBIDDEN; data := ErrNotOwner |}.
Definition AlreadyCancelled : Response :=
  {| status_code := HTTP_400_BAD_REQUEST; data := ErrIsCancelled |}.
Definition CancellationFailed (e : DbError) : Response :=
  {| status_code := HTTP_500_INTERNAL_SERVER_ERROR; data := ErrCancellationFailed e |}.

(** The active bookings of a seat and of a show. *)
Definition active_seat (sid seat : Z) (db : Db) : gmap Z Booking :=
  filter_show_seat_status sid seat booked (bookings db).
Definition active_show (sid : Z) (db : Db) : gmap Z Booking :=
  filter_show_status sid booked (bookings db).

(** The row written by [Booking.objects.create] and the row written back by a
    cancellation. *)
Definition new_row (u : User) (sid seat : Z) (now : Z) : Booking :=
  {| user := u; show := sid; seat_number := seat; status := booked;
     created_at := now; updated_at := now |}.
Definition cancelled_row (b : Booking) (now : Z) : Booking :=
  {| user := user b; show := show b; seat_number := seat_number b;
     status := cancelled; created_at := created_at b; updated_at := now |}.

(** The serializer accepts the integer [n] for the show. *)
Definition accepts (sid n : Z) (db : Db) : bool :=
  match BookingCreateSerializer.is_valid sid (FieldInt n) db with
  | inr _ => true
  | inl _ => false
  end.

(** ** Requests in flight at the same time

    [BookSeatView.post] issues its database statements one by one: the show
    lookup, the serializer's show lookup, the [exists()] query, the
    [count()] query and the [INSERT].  [select_for_update()] locks the rows
    the query returns; when the seat is free it returns none, so nothing
    holds back a second request for the same seat.  The statements of
    requests in flight therefore interleave; each statement reads the
    committed rows, and the [INSERT] is checked against the unique index and
    commits with the end of the [atomic] block. *)

(** Where a call of [BookSeatView.post] stands. *)
Inductive BookCall :=
  | AtShowLookup (u : User) (show_id : Z) (f : SeatField) (now : Z)
  | AtValidation (u : User) (show_id : Z) (sh : Show) (f : SeatField) (now : Z)
  | AtExistsQuery (u : User) (show_id : Z) (sh : Show) (seat : Z) (now : Z)
  | AtCountQuery (u : User) (show_id : Z) (sh : Show) (seat : Z) (now : Z)
  | AtCreate (u : User) (show_id : Z) (sh : Show) (seat : Z) (now : Z)
  | Returned (r : Response).

(** The next statement of a call. *)
Definition book_step (c : BookCall) (db : Db) : BookCall * Db :=
  match c with
  | AtShowLookup u show_id f now =>
      match shows db !! show_id with
      | None => (Returned {| status_code := HTTP_404_NOT_FOUND;
                             data := ErrShowNotFound |}, db)
      | Some sh => (AtValidation u show_id sh f now, db)
      end
  | AtValidation u show_id sh f now =>
      match BookingCreateSerializer.is_valid show_id f db with
      | inl e => (Returned {| status_code := HTTP_400_BAD_REQUEST;
                              data := SerializerErrors e |}, db)
      | inr seat => (AtExistsQuery u show_id sh seat now, db)
      end
  | AtExistsQuery u show_id sh seat now =>
      if exists_ (filter_show_seat_status show_id seat booked (bookings db))
      then (Returned {| status_code := HTTP_400_BAD_REQUEST;
                        data := ErrSeatTaken seat |}, db)
      else (AtCountQuery u show_id sh seat now, db)
  | AtCountQuery u show_id sh seat now =>
      if decide (count (filter_show_status show_id booked (bookings db))
                 >= total_seats sh)
      then (Returned {| status_code := HTTP_400_BAD_REQUEST;
                        data := ErrFullyBooked |}, db)
      else (AtCreate u show_id sh seat now, db)
  | AtCreate u show_id sh seat now =>
      match Booking_create u show_id seat booked now db with
      | inl e => (Returned {| status_code := HTTP_500_INTERNAL_SERVER_ERROR;
                              data := ErrBookingFailed e |}, db)
      | inr (_, b, db') =>
          (Returned {| status_code := HTTP_201_CREATED;
                       data := MsgBookingSuccessful (BookingSerializer.data b (Some sh) db') |},
           db')
      end
  | Returned r => (Returned r, db)
  end.

(** The calls in flight and the store they share. *)
Definition Flight : Type := list BookCall * Db.

(** Call number [i] runs its next statement. *)
Definition flight_step (i : nat) (st : Flight) : Flight :=
  match st.1 !! i with
  | Some c => (<[i := (book_step c st.2).1]> st.1, (book_step c st.2).2)
  | None => st
  end.

(** A schedule names, statement by statement, the call that runs next. *)
Fixpoint run_schedule (sch : list nat) (st : Flight) : Flight :=
  match sch with
  | [] => st
  | i :: sch' => run_schedule sch' (flight_step i st)
  end.

(** The response of a call that has returned. *)
Definition returned (c : BookCall) : option Response :=
  match c with
  | Returned r => Some r
  | _ => None
  end.

(** [n] statements of the call [c], with no other call in between. *)
Fixpoint book_steps (n : nat) (c : BookCall) (db : Db) : BookCall * Db :=
  match n with
  | O => (c, db)
  | S n' => book_steps n' (book_step c db).1 (book_step c db).2
  end.

(** Requests for the same seat of a show, one per user, served one after the
    other. *)
Fixpoint book_in_turn (us : list User) (sid : Z) (seat : Z) (now : Z) (db : Db)
    : list Response * Db :=
  match us with
  | [] => ([], db)
  | u :: us' =>
      let r := book u sid (FieldInt seat) now db in
      let rs := book_in_turn us' sid seat now r.2 in
      (r.1 :: rs.1, rs.2)
  end.

(** ** Sample data *)

Definition movie1 : Movie :=
  {| movie_id := 1; title := "Test Movie"; duration_minutes := 120;
     movie_created_at := 0 |}.

(** A show with a single seat and the show of the test suite, with ten. *)
Definition show_1seat : Show :=
  {| movie := movie1; screen_name := "Screen 1"; date_time := 1000;
     total_seats := 1; show_created_at := 0 |}.
Definition show_10seats : Show :=
  {| movie := movie1; screen_name := "Screen 2"; date_time := 1000;
     total_seats := 10; show_created_at := 0 |}.

Definition userA : User := {| user_id := 1; username := "testuser1" |}.
Definition userB : User := {| user_id := 2; username := "testuser2" |}.

(** Show 7 has one seat, show 8 has ten; nothing is booked. *)
Definition db_empty : Db := init {[ 7 := show_1seat; 8 := show_10seats ]}.

(** Seat 1 of show 7 is held by [userA] (booking 1). *)
Definition db_taken : Db := run [Book userA 7 (FieldInt 1) 10] db_empty.

(** ** views.py: the caller's bookings *)

Module MyBookingsView.

(** [get_queryset]: [Booking.objects.filter(user=self.request.user)], the rows
    the listing is made of.  Their order in the listing ([Meta.ordering]) is
    not part of it. *)
Definition get_queryset (u : User) (db : Db) : gmap Z Booking :=
  filter (λ kv, user_id (user kv.2) = user_id u) (bookings db).

End MyBookingsView.

(** Who sends a request. *)
Definition requester (o : Op) : User :=
  match o with
  | Book u _ _ _ => u
  | Cancel u _ _ => u
  end.

(** ** Conditions on a ledger *)

(** Every primary key in use lies below the auto-increment counter. *)
Definition pk_fresh (db : Db) : Prop :=
  ∀ i b, bookings db !! i = Some b → i < booking_seq db.

(** The seat of every active booking lies within its show. *)
Definition seats_in_range (db : Db) : Prop :=
  ∀ i b sh, bookings db !! i = Some b → status b = booked →
            shows db !! show b = Some sh →
            1 ≤ seat_number b ≤ total_seats sh.

(** No seat of any show has two active bookings. *)
Definition active_unique (db : Db) : Prop :=
  ∀ sid seat, count (active_seat sid seat db) ≤ 1.

(** What a call in flight has read so far agrees with the store: the show it
    holds is the stored one, and a seat number it holds has passed the
    serializer. *)
Definition call_ok (db : Db) (c : BookCall) : Prop :=
  match c with
  | AtShowLookup _ _ _ _ => True
  | AtValidation _ sid sh _ _ => shows db !! sid = Some sh
  | AtExistsQuery _ sid sh seat _
  | AtCountQuery _ sid sh seat _
  | AtCreate _ sid sh seat _ =>
      shows db !! sid = Some sh ∧ 1 ≤ seat ≤ total_seats sh
  | Returned _ => True
  end.

(** A call that was answered 201. *)
Definition accepted (c : BookCall) : bool :=
  match c with
  | Returned r => bool_decide (status_code r = HTTP_201_CREATED)
  | _ => false
  end.

(** A call of a request for seat [seat] of show [sid] that has not returned. *)
Definition aims_at (sid seat : Z) (c : BookCall) : Prop :=
  match c with
  | AtShowLookup _ s f _ | AtValidation _ s _ f _ => s = sid ∧ f = FieldInt seat
  | AtExistsQuery _ s _ n _ | AtCountQuery _ s _ n _ | AtCreate _ s _ n _ =>
      s = sid ∧ n = seat
  | Returned _ => True
  end.

(** The number of calls answered 201. *)
Definition accepted_count (cs : list BookCall) : nat :=
  length (filter (λ c, accepted c = true) cs).

(** The seats of a show that are taken. *)
Definition taken_seats (sid : Z) (db : Db) : gset Z :=
  map_to_set (λ _ b, seat_number b) (active_show sid db).

(** ** views.py and serializers.py: signup and login

    The parts of Django and of the REST framework the two views call are
    taken as given: the character field's own validation, the password
    validators, [create_user], [authenticate] and the token factory. *)

(** A user as [UserLoginView] reads it. *)
Record Account := { account : User; email : string }.

(** [RefreshToken.for_user(user)]: [str(refresh)] and
    [str(refresh.access_token)]. *)
Record Tokens := { refresh : string; access : string }.

Inductive FieldError :=
  | ErrRequired     (* "This field is required." *)
  | ErrRejected     (* the field's own validation or one of its validators failed *)
  | ErrMismatch.    (* "Password fields didn't match." *)

(** Exceptions no handler of the views catches. *)
Inductive PyException := KeyError (key : string).

(** What [is_valid(raise_exception=True)] raises. *)
Inductive Raised :=
  | RaisedValidationError (detail : gmap string FieldError)
  | RaisedException (e : PyException).

Inductive AuthBody :=
  | ErrValidation (detail : gmap string FieldError)
  | MsgRegistered (t : Tokens)       (* "User registered successfully" *)
  | ErrMissingCredentials            (* "Please provide both username and password" *)
  | MsgLoginSuccessful (t : Tokens) (id : Z) (name mail : string)
  | ErrInvalidCredentials.           (* "Invalid credentials" *)

Record AuthResponse := { auth_status : Z; auth_body : AuthBody }.

(** A view either answers or lets an exception escape. *)
Inductive Outcome :=
  | Responded (r : AuthResponse)
  | Unhandled (e : PyException).

Definition HTTP_401_UNAUTHORIZED := 401.

Module UserRegistrationSerializer.
Section with_framework.
Variable CharField : string → option string.
Variable validate_password : string → bool.
Variable create_user : gmap string string → PyException + Account.

(** [password = serializers.CharField(write_only=True, required=True,
    validators=[validate_password])] *)
Definition password (v : option string) : FieldError + string :=
  match v with
  | None => inl ErrRequired
  | Some s =>
      match CharField s with
      | None => inl ErrRejected
      | Some s' => if validate_password s' then inr s' else inl ErrRejected
      end
  end.

(** [passoword2 = serializers.CharField(write_only=True, required=True)] *)
Definition passoword2 (v : option string) : FieldError + string :=
  match v with
  | None => inl ErrRequired
  | Some s =>
      match CharField s with
      | None => inl ErrRejected
      | Some s' => inr s'
      end
  end.

(** The class is a plain [Serializer]: its fields are the two declared ones,
    each read from the entry of the request that carries its name; the
    validated values are collected under the field names, the errors
    likewise. *)
Definition to_internal_value (data : gmap string string)
    : gmap string FieldError + gmap string string :=
  match password (data !! "password"), passoword2 (data !! "passoword2") with
  | inr p, inr p2 => inr (<["password" := p]> {["passoword2" := p2]})
  | inl e, inr _ => inl {["password" := e]}
  | inr _, inl e2 => inl {["passoword2" := e2]}
  | inl e, inl e2 => inl (<["password" := e]> {["passoword2" := e2]})
  end.

(** [validate(self, attrs)] *)
Definition validate (attrs : gmap string string) : Raised + gmap string string :=
  match attrs !! "password" with
  | None => inl (RaisedException (KeyError "password"))
  | Some p =>
      match attrs !! "password2" with
      | None => inl (RaisedException (KeyError "password2"))
      | Some p2 =>
          if decide (p ≠ p2)
          then inl (RaisedValidationError {["password" := ErrMismatch]})
          else inr attrs
      end
  end.

(** [is_valid(raise_exception=True)] *)
Definition is_valid (data : gmap string string) : Raised + gmap string string :=
  match to_internal_value data with
  | inl errs => inl (RaisedValidationError errs)
  | inr attrs => validate attrs
  end.

(** [create(self, validated_data)] *)
Definition create (validated_data : gmap string string) : PyException + Account :=
  match validated_data !! "password2" with
  | None => inl (KeyError "password2")
  | Some _ => create_user (delete "password2" validated_data)
  end.

End with_framework.
End UserRegistrationSerializer.

Module UserRegistrationView.
Section with_framework.
Variable CharField : string → option string.
Variable validate_password : string → bool.
Variable create_user : gmap string string → PyException + Account.
Variable for_user : Account → Tokens.

(** [post(self, request)]: a [ValidationError] raised by [is_valid] is
    answered 400 by the framework; any other exception escapes. *)
Definition post (data : gmap string string) : Outcome :=
  match UserRegistrationSerializer.is_valid CharField validate_password data with
  | inl (RaisedValidationError errs) =>
      Responded {| auth_status := HTTP_400_BAD_REQUEST; auth_body := ErrValidation errs |}
  | inl (RaisedException e) => Unhandled e
  | inr validated_data =>
      match UserRegistrationSerializer.create create_user validated_data with
      | inl e => Unhandled e
      | inr acc =>
          Responded {| auth_status := HTTP_201_CREATED;
                       auth_body := MsgRegistered (for_user acc) |}
      end
  end.

End with_framework.
End UserRegistrationView.

Module UserLoginView.
Section with_framework.
Variable authenticate : string → string → option Account.
Variable for_user : Account → Tokens.

(** [not value] for the result of [request.data.get(key)]. *)
Definition not_ (v : option string) : bool :=
  match v with
  | None => true
  | Some s => bool_decide (s = "")
  end.

(** [post(self, request)] *)
Definition post (data : gmap string string) : AuthResponse :=
  if not_ (data !! "username") || not_ (data !! "password")
  then {| auth_status := HTTP_400_BAD_REQUEST; auth_body := ErrMissingCredentials |}
  else
    match authenticate (default "" (data !! "username"))
                       (default "" (data !! "password")) with
    | Some acc =>
        {| auth_status := HTTP_200_OK;
           auth_body := MsgLoginSuccessful (for_user acc) (user_id (account acc))
                          (username (account acc)) (email acc) |}
    | None =>
        {| auth_status := HTTP_401_UNAUTHORIZED; auth_body := ErrInvalidCredentials |}
    end.

End with_framework.
End UserLoginView.

(** ** More sample data *)

(** Seat 1 of show 7 was booked and cancelled by [userA] (booking 1) and is
    now held by [userB] (booking 2). *)
Definition db_rebooked : Db :=
  run [Cancel userA 1 11; Book userB 7 (FieldInt 1) 12] db_taken.

(** The body of the signup request of the test suite. *)
Definition signup_data : gmap string string :=
  {[ "username" := "newuser"; "email" := "newuser@example.com";
     "password" := "SecurePass123!"; "password2" := "SecurePass123!" ]}.

(** ** The body as the client reads it *)

(** A rendered value: what [serializer.data] holds, field by field. *)
#[warnings="-register-all"] Inductive Json :=
  | JNull
  | JInt (n : Z)
  | JStr (s : string)
  | JObj (items : list (string * Json)).

Fixpoint assoc (key : string) (items : list (string * Json)) : option Json :=
  match items with
  | [] => None
  | (k, v) :: rest => if decide (k = key) then Some v else assoc key rest
  end.

(** [value[key]]; [None] stands for the [KeyError]. *)
Definition getitem (key : string) (j : Json) : option Json :=
  match j with
  | JObj items => assoc key items
  | _ => None
  end.

Definition keys (j : Json) : list string :=
  match j with
  | JObj items => fst <$> items
  | _ => []
  end.

(** The fields of [ShowSerializer.Meta.fields], in their order. *)
Definition ShowData_json (d : ShowData) : Json :=
  JObj [("id", JInt (sd_id d)); ("movie", JInt (sd_movie d));
        ("movie_title", JStr (sd_movie_title d));
        ("screen_name", JStr (sd_screen_name d));
        ("date_time", JInt (sd_date_time d));
        ("total_seats", JInt (sd_total_seats d));
        ("available_seats", JInt (sd_available_seats d));
        ("created_at", JInt (sd_created_at d))].

(** The declared fields of [BookingSerializer], in their order. *)
Definition BookingData_json (d : BookingData) : Json :=
  JObj [("show_details", from_option ShowData_json JNull (show_details d));
        ("username", JStr (bd_username d))].

(** [response.data["booking"]] *)
Definition booking_entry (b : Body) : option Json :=
  match b with
  | MsgBookingSuccessful d | MsgBookingCancelled d => Some (BookingData_json d)
  | _ => None
  end.


(** * Properties *)

(** ** Counting the rows of a query *)

Section filter_size.
Context {A : Type} (P : Z * A → Prop) `{!∀ x, Decision (P x)}.

Lemma size_filter_insert_fresh (m : gmap Z A) i x :
  m !! i = None → P (i, x) →
  size (filter P (<[i:=x]> m)) = S (size (filter P m)).
Proof.
  intros Hi HP. rewrite map_filter_insert_True by done.
  apply map_size_insert_None, map_lookup_filter_None. by left.
Qed.

Lemma filter_insert_fresh_not (m : gmap Z A) i x :
  m !! i = None → ¬ P (i, x) → filter P (<[i:=x]> m) = filter P m.
Proof.
  intros Hi HP. apply map_filter_insert_not'; [done|].
  intros y Hy. congruence.
Qed.

Lemma size_filter_insert_le (m : gmap Z A) i x :
  ¬ P (i, x) → (size (filter P (<[i:=x]> m)) ≤ size (filter P m))%nat.
Proof.
  intros HP. rewrite map_filter_insert_False, map_filter_delete by done.
  rewrite map_size_delete. destruct (filter P m !! i); simpl; lia.
Qed.

End filter_size.

Lemma exists_false (q : gmap Z Booking) : exists_ q = false ↔ q = ∅.
Proof.
  unfold exists_. rewrite bool_decide_eq_false. split; [|naive_solver].
  intros H. by destruct (decide (q = ∅)).
Qed.

Lemma exists_true (q : gmap Z Booking) : exists_ q = true ↔ q ≠ ∅.
Proof. unfold exists_. by rewrite bool_decide_eq_true. Qed.

(** ** What one request does to the store *)

(** A booking request either leaves the store alone and is not answered with
    201, or has passed every check and appends one [booked] row. *)
Lemma book_inv u sid f now db :
  ((book u sid f now db).2 = db ∧
   status_code (book u sid f now db).1 ≠ HTTP_201_CREATED) ∨
  (∃ sh seat,
      shows db !! sid = Some sh ∧
      BookingCreateSerializer.is_valid sid f db = inr seat ∧
      active_seat sid seat db = ∅ ∧
      count (active_show sid db) < total_seats sh ∧
      bookings db !! booking_seq db = None ∧
      book u sid f now db =
        ({| status_code := HTTP_201_CREATED;
            data := MsgBookingSuccessful
                      (BookingSerializer.data (new_row u sid seat now) (Some sh)
                         {| shows := shows db;
                            bookings := <[booking_seq db := new_row u sid seat now]> (bookings db);
                            booking_seq := booking_seq db + 1 |}) |},
         {| shows := shows db;
            bookings := <[booking_seq db := new_row u sid seat now]> (bookings db);
            booking_seq := booking_seq db + 1 |})).
Proof.
  unfold book, active_seat, active_show.
  destruct (shows db !! sid) as [sh|] eqn:Hsh; [|by left].
  destruct (BookingCreateSerializer.is_valid sid f db) as [e|seat] eqn:Hv; [by left|].
  destruct (exists_ (filter_show_seat_status _ _ _ _)) eqn:Hex; [by left|].
  case_decide as Hc; [by left|].
  unfold Booking_create. case_decide as Hpk; [by left|].
  destruct (exists_ (unique_together_conflicts _ _ _)) eqn:Hu; [by left|].
  right. exists sh, seat. repeat split; try done.
  - by apply exists_false.
  - lia.
  - by apply eq_None_not_Some.
Qed.

(** A cancellation either leaves the store alone and is not answered with
    200, or rewrites the caller's own [booked] row as [cancelled]. *)
Lemma cancel_inv u bid now db :
  ((cancel u bid now db).2 = db ∧
   status_code (cancel u bid now db).1 ≠ HTTP_200_OK) ∨
  (∃ b,
      bookings db !! bid = Some b ∧
      user_id (user b) = user_id u ∧
      status b = booked ∧
      unique_together_conflicts (Some bid) (cancelled_row b now) (bookings db) = ∅ ∧
      (cancel u bid now db).2 =
        {| shows := shows db;
           bookings := <[bid := cancelled_row b now]> (bookings db);
           booking_seq := booking_seq db |}).
Proof.
  unfold cancel.
  destruct (bookings db !! bid) as [b|] eqn:Hb; [|by left].
  case_decide as Hu; [by left|].
  case_decide as Hs; [by left|].
  unfold Booking_save; simpl.
  destruct (exists_ (unique_together_conflicts _ _ _)) eqn:Hq; [by left|].
  right. exists b. repeat split.
  - destruct (decide (user_id (user b) = user_id u)); [done|contradiction].
  - by destruct (status b).
  - by apply exists_false.
Qed.

Lemma is_valid_in_range db sid sh n :
  shows db !! sid = Some sh → 1 ≤ n ≤ total_seats sh →
  BookingCreateSerializer.is_valid sid (FieldInt n) db = inr n.
Proof.
  intros Hsh Hn.
  unfold BookingCreateSerializer.is_valid,
    BookingCreateSerializer.validate_seat_number. simpl.
  rewrite decide_False by lia. rewrite Hsh. by rewrite decide_False by lia.
Qed.

(** A request that passes every check is accepted. *)
Lemma book_success u sid seat now db sh :
  shows db !! sid = Some sh →
  1 ≤ seat ≤ total_seats sh →
  active_seat sid seat db = ∅ →
  count (active_show sid db) < total_seats sh →
  bookings db !! booking_seq db = None →
  book u sid (FieldInt seat) now db =
    ({| status_code := HTTP_201_CREATED;
        data := MsgBookingSuccessful
                  (BookingSerializer.data (new_row u sid seat now) (Some sh)
                     {| shows := shows db;
                        bookings := <[booking_seq db := new_row u sid seat now]> (bookings db);
                        booking_seq := booking_seq db + 1 |}) |},
     {| shows := shows db;
        bookings := <[booking_seq db := new_row u sid seat now]> (bookings db);
        booking_seq := booking_seq db + 1 |}).
Proof.
  intros Hsh Hseat Hfree Hroom Hpk. unfold book. rewrite Hsh.
  rewrite (is_valid_in_range db sid sh seat Hsh Hseat).
  unfold active_seat, active_show in *.
  rewrite (proj2 (exists_false _) Hfree).
  rewrite decide_False by lia.
  unfold Booking_create. rewrite Hpk.
  rewrite decide_False by (by intros [? ?]).
  unfold unique_together_conflicts. simpl. rewrite Hfree, map_filter_empty.
  by rewrite (proj2 (exists_false _) eq_refl).
Qed.

Lemma book_seat_taken u sid seat now db sh pk b :
  shows db !! sid = Some sh →
  1 ≤ seat ≤ total_seats sh →
  bookings db !! pk = Some b →
  show b = sid → seat_number b = seat → status b = booked →
  book u sid (FieldInt seat) now db = (SeatAlreadyBooked seat, db).
Proof.
  intros Hsh Hrange Hb Hbs Hbn Hbst. unfold book. rewrite Hsh.
  rewrite (is_valid_in_range db sid sh seat Hsh Hrange).
  assert (exists_ (filter_show_seat_status sid seat booked (bookings db)) = true)
    as ->; [|done].
  apply exists_true. intros He.
  by eapply (map_filter_empty_not_lookup _ _ pk b He).
Qed.

(** The owner's cancellation of a [booked] row is accepted when no other row
    of the same show and seat is [cancelled] already. *)
Lemma cancel_success u bid now db b sh :
  bookings db !! bid = Some b →
  user_id (user b) = user_id u →
  status b = booked →
  unique_together_conflicts (Some bid) (cancelled_row b now) (bookings db) = ∅ →
  shows db !! show b = Some sh →
  cancel u bid now db =
    ({| status_code := HTTP_200_OK;
        data := MsgBookingCancelled
                  (BookingSerializer.data (cancelled_row b now) (Some sh)
                     {| shows := shows db;
                        bookings := <[bid := cancelled_row b now]> (bookings db);
                        booking_seq := booking_seq db |}) |},
     {| shows := shows db;
        bookings := <[bid := cancelled_row b now]> (bookings db);
        booking_seq := booking_seq db |}).
Proof.
  intros Hb Hu Hs Hq Hsh. unfold cancel. rewrite Hb.
  rewrite decide_False by (intros Hne; by apply Hne).
  rewrite decide_False by (by rewrite Hs).
  unfold Booking_save. simpl. unfold cancelled_row in Hq.
  rewrite (proj2 (exists_false _) Hq). simpl. by rewrite Hsh.
Qed.

Lemma step_shows o db : shows (step o db).2 = shows db.
Proof.
  destruct o as [u sid f now|u bid now]; simpl.
  - destruct (book_inv u sid f now db) as [[-> _]|(sh & seat & _ & _ & _ & _ & _ & ->)]; done.
  - destruct (cancel_inv u bid now db) as [[-> _]|(b & _ & _ & _ & _ & ->)]; done.
Qed.


(** ** Uniqueness of the active booking of a seat *)

Lemma size_le_1_lookup {A} (m : gmap Z A) i j x y :
  (size m ≤ 1)%nat → m !! i = Some x → m !! j = Some y → i = j.
Proof.
  intros Hs Hi Hj. destruct (decide (i = j)) as [|Hne]; [done|].
  assert (size (delete i m) = 0%nat) as H0.
  { rewrite map_size_delete, Hi. simpl. lia. }
  apply map_size_empty_inv in H0.
  assert (delete i m !! j = Some y) as Hd by by rewrite lookup_delete_ne.
  by rewrite H0, lookup_empty in Hd.
Qed.

Lemma step_active_seat o db sid seat :
  count (active_seat sid seat db) ≤ 1 →
  count (active_seat sid seat (step o db).2) ≤ 1.
Proof.
  intros H. destruct o as [u sid' f now|u bid now]; simpl.
  - destruct (book_inv u sid' f now db)
      as [[-> _]|(sh & seat' & _ & _ & Hfree & _ & Hpk & ->)]; [done|].
    unfold active_seat, filter_show_seat_status, count in *. simpl.
    destruct (decide (sid' = sid ∧ seat' = seat)) as [[-> ->]|Hne].
    + rewrite size_filter_insert_fresh by done. rewrite Hfree, map_size_empty. lia.
    + rewrite filter_insert_fresh_not; [done..|]. simpl. intros (? & ? & _). by apply Hne.
  - destruct (cancel_inv u bid now db) as [[-> _]|(b & _ & _ & _ & _ & ->)]; [done|].
    unfold active_seat, filter_show_seat_status, count in *. simpl.
    etrans; [|exact H]. apply inj_le, size_filter_insert_le. simpl.
    by intros (_ & _ & ?).
Qed.

Lemma run_active_seat ops db sid seat :
  count (active_seat sid seat db) ≤ 1 →
  count (active_seat sid seat (run ops db)) ≤ 1.
Proof.
  revert db. induction ops as [|o ops IH]; intros db H; simpl; [done|].
  by apply IH, step_active_seat.
Qed.

(** C1: starting from a ledger in which a seat of a show has at most one
    [booked] row, after any sequence of book and cancel requests that seat
    still has at most one [booked] row: the count of the active rows of the
    pair is at most 1, and any two [booked] rows of the pair are the same
    row. *)
Theorem at_most_one_active_booking (ops : list Op) (db : Db) (sid seat : Z) :
  count (active_seat sid seat db) ≤ 1 →
  count (active_seat sid seat (run ops db)) ≤ 1 ∧
  ∀ i j bi bj,
    bookings (run ops db) !! i = Some bi →
    bookings (run ops db) !! j = Some bj →
    show bi = sid → seat_number bi = seat → status bi = booked →
    show bj = sid → seat_number bj = seat → status bj = booked →
    i = j.
Proof.
  intros H. apply (run_active_seat ops) in H. split; [done|].
  intros i j bi bj Hi Hj ? ? ? ? ? ?.
  apply (size_le_1_lookup (active_seat sid seat (run ops db)) i j bi bj).
  - unfold count in H. lia.
  - by apply map_lookup_filter_Some.
  - by apply map_lookup_filter_Some.
Qed.

(** The same from a ledger without bookings: no hypothesis is left. *)
Corollary at_most_one_active_booking_init (shs : gmap Z Show) (ops : list Op)
    (sid seat : Z) :
  count (active_seat sid seat (run ops (init shs))) ≤ 1.
Proof.
  apply run_active_seat. unfold active_seat, filter_show_seat_status, count. simpl.
  rewrite map_filter_empty, map_size_empty. lia.
Qed.

Lemma at_most_one_active_booking_witness :
  count (active_seat 7 1
           (run [Book userA 7 (FieldInt 1) 10; Book userB 7 (FieldInt 1) 11;
                 Cancel userA 1 12; Book userB 7 (FieldInt 1) 13] db_empty)) = 1 ∧
  ∀ i j bi bj,
    bookings (run [Book userA 7 (FieldInt 1) 10; Book userB 7 (FieldInt 1) 11;
                   Cancel userA 1 12; Book userB 7 (FieldInt 1) 13] db_empty) !! i = Some bi →
    bookings (run [Book userA 7 (FieldInt 1) 10; Book userB 7 (FieldInt 1) 11;
                   Cancel userA 1 12; Book userB 7 (FieldInt 1) 13] db_empty) !! j = Some bj →
    show bi = 7 → seat_number bi = 1 → status bi = booked →
    show bj = 7 → seat_number bj = 1 → status bj = booked →
    i = j.
Proof.
  split; [vm_compute; reflexivity|].
  apply (at_most_one_active_booking _ db_empty 7 1).
  vm_compute. discriminate.
Defined.

(** ** Capacity *)

Lemma step_active_show o db sid sh :
  shows db !! sid = Some sh →
  count (active_show sid db) ≤ total_seats sh →
  count (active_show sid (step o db).2) ≤ total_seats sh.
Proof.
  intros Hsh H. destruct o as [u sid' f now|u bid now]; simpl.
  - destruct (book_inv u sid' f now db)
      as [[-> _]|(sh' & seat' & Hsh' & _ & _ & Hroom & Hpk & ->)]; [done|].
    unfold active_show, filter_show_status, count in *. simpl.
    destruct (decide (sid' = sid)) as [->|Hne].
    + rewrite size_filter_insert_fresh by done.
      assert (sh' = sh) as -> by congruence. lia.
    + rewrite filter_insert_fresh_not; [done..|]. simpl. by intros [? _].
  - destruct (cancel_inv u bid now db) as [[-> _]|(b & _ & _ & _ & _ & ->)]; [done|].
    unfold active_show, filter_show_status, count in *. simpl.
    etrans; [|exact H]. apply inj_le, size_filter_insert_le. simpl.
    by intros [_ ?].
Qed.

Lemma run_active_show ops db sid sh :
  shows db !! sid = Some sh →
  count (active_show sid db) ≤ total_seats sh →
  count (active_show sid (run ops db)) ≤ total_seats sh.
Proof.
  revert db. induction ops as [|o ops IH]; intros db Hsh H; simpl; [done|].
  apply IH; [by rewrite step_shows|by apply step_active_show].
Qed.


(** The same from a ledger without bookings, for a show whose capacity is not
    negative. *)
Corollary capacity_never_exceeded_init (shs : gmap Z Show) (ops : list Op)
    (sid : Z) (sh : Show) :
  shs !! sid = Some sh → 0 ≤ total_seats sh →
  count (active_show sid (run ops (init shs))) ≤ total_seats sh.
Proof.
  intros Hsh Hpos. apply run_active_show; [done|].
  unfold active_show, filter_show_status, count. simpl.
  by rewrite map_filter_empty, map_size_empty.
Qed.



(** ** Seat-number validation *)

(** On its own the method [validate_seat_number] checks the upper bound; the
    lower bound is the field's [min_value]. *)
Lemma validate_seat_number_upper_bound db sid sh n :
  shows db !! sid = Some sh →
  BookingCreateSerializer.validate_seat_number sid n db = inr n ↔ n ≤ total_seats sh.
Proof.
  intros Hsh. unfold BookingCreateSerializer.validate_seat_number. rewrite Hsh.
  case_decide; split; intros; (done || lia).
Qed.

(** C5: for an existing show, the seat-number validation of
    [BookingCreateSerializer] accepts [n] exactly when
    [1 ≤ n ≤ total_seats], handing [n] on unchanged; a book request with a
    seat number outside that range is answered with a validation error and the
    ledger is left as it was. *)
Theorem seat_number_validation (db : Db) (sid : Z) (sh : Show) (n : Z) :
  shows db !! sid = Some sh →
  (accepts sid n db = true ↔ 1 ≤ n ≤ total_seats sh) ∧
  (1 ≤ n ≤ total_seats sh →
     BookingCreateSerializer.is_valid sid (FieldInt n) db = inr n) ∧
  (n < 1 ∨ n > total_seats sh →
     ∀ u now, ∃ e, book u sid (FieldInt n) now db = (ValidationError e, db)).
Proof.
  intros Hsh.
  unfold accepts, book, BookingCreateSerializer.is_valid,
    BookingCreateSerializer.validate_seat_number.
  rewrite Hsh. simpl.
  destruct (decide (n < 1)) as [Hlt|Hge]; simpl.
  - split; [split; [done|lia]|]. split; [lia|]. intros _ u now. by eexists.
  - destruct (decide (n > total_seats sh)) as [Hgt|Hle]; simpl.
    + split; [split; [done|lia]|]. split; [lia|]. intros _ u now. by eexists.
    + split; [split; [lia|done]|]. split; [done|]. lia.
Qed.

Lemma seat_number_validation_witness :
  (accepts 8 10 db_empty = true ↔ 1 ≤ 10 ≤ total_seats show_10seats) ∧
  BookingCreateSerializer.is_valid 8 (FieldInt 10) db_empty = inr 10 ∧
  (∃ e, book userA 8 (FieldInt 0) 5 db_empty = (ValidationError e, db_empty)) ∧
  (∃ e, book userA 8 (FieldInt 999) 5 db_empty = (ValidationError e, db_empty)).
Proof.
  destruct (seat_number_validation db_empty 8 show_10seats 10) as (H1 & H2 & _);
    [reflexivity|].
  split; [exact H1|]. split; [apply H2; simpl; lia|].
  split.
  - destruct (seat_number_validation db_empty 8 show_10seats 0) as (_ & _ & H3);
      [reflexivity|].
    apply H3. left. lia.
  - destruct (seat_number_validation db_empty 8 show_10seats 999) as (_ & _ & H3);
      [reflexivity|].
    apply H3. right. simpl. lia.
Defined.

(** ** A seat that is taken *)

(** C6: for an existing show and a valid seat number, when an active booking
    of the seat exists a book request is answered [SeatAlreadyBooked] and the
    ledger is left as it was, whatever the number of active bookings of the
    show: the answer is not [ShowFull], also when the show is full. *)
Theorem seat_taken_rejected (db : Db) (sid : Z) (sh : Show) (seat : Z)
    (pk : Z) (b : Booking) (u : User) (now : Z) :
  shows db !! sid = Some sh →
  1 ≤ seat ≤ total_seats sh →
  bookings db !! pk = Some b →
  show b = sid → seat_number b = seat → status b = booked →
  book u sid (FieldInt seat) now db = (SeatAlreadyBooked seat, db) ∧
  (book u sid (FieldInt seat) now db).1 ≠ ShowFull.
Proof.
  intros Hsh Hrange Hb Hbs Hbn Hbst.
  rewrite (book_seat_taken u sid seat now db sh pk b) by done.
  split; [done|]. discriminate.
Qed.

Lemma seat_taken_rejected_witness :
  count (active_show 7 db_taken) >= total_seats show_1seat ∧
  book userB 7 (FieldInt 1) 11 db_taken = (SeatAlreadyBooked 1, db_taken) ∧
  (book userB 7 (FieldInt 1) 11 db_taken).1 ≠ ShowFull.
Proof.
  split; [vm_compute; discriminate|].
  apply (seat_taken_rejected db_taken 7 show_1seat 1 1 (new_row userA 7 1 10));
    try reflexivity.
  simpl; lia.
Defined.

(** ** Cancellation *)

(** C7: a cancel request from a user who is not the booking's owner is
    answered [Forbidden] and leaves the ledger, and so the booking, as it
    was.  The answer is the same whatever the booking holds, so it tells the
    caller only that the booking exists; in particular it is [Forbidden], not
    [AlreadyCancelled], also for a booking that is already cancelled. *)
Theorem cancel_by_non_owner (db : Db) (bid : Z) (b : Booking) (u : User) (now : Z) :
  bookings db !! bid = Some b →
  user_id (user b) ≠ user_id u →
  cancel u bid now db = (Forbidden, db) ∧
  (cancel u bid now db).1 ≠ AlreadyCancelled ∧
  ∀ db2 bid2 b2 now2,
    bookings db2 !! bid2 = Some b2 →
    user_id (user b2) ≠ user_id u →
    (cancel u bid2 now2 db2).1 = (cancel u bid now db).1.
Proof.
  intros Hb Hu.
  assert (∀ d i r t, bookings d !! i = Some r → user_id (user r) ≠ user_id u →
            cancel u i t d = (Forbidden, d)) as Hgen.
  { intros d i r t Hr Hne. unfold cancel. rewrite Hr. by rewrite decide_True. }
  rewrite (Hgen db bid b now Hb Hu). split; [done|]. split; [discriminate|].
  intros db2 bid2 b2 now2 Hb2 Hu2. by rewrite (Hgen db2 bid2 b2 now2 Hb2 Hu2).
Qed.

Lemma cancel_by_non_owner_witness :
  status <$> bookings (run [Cancel userA 1 11] db_taken) !! 1 = Some cancelled ∧
  cancel userB 1 12 (run [Cancel userA 1 11] db_taken)
    = (Forbidden, run [Cancel userA 1 11] db_taken) ∧
  (cancel userB 1 12 (run [Cancel userA 1 11] db_taken)).1 ≠ AlreadyCancelled ∧
  (cancel userB 1 13 db_taken).1
    = (cancel userB 1 12 (run [Cancel userA 1 11] db_taken)).1.
Proof.
  split; [reflexivity|].
  destruct (cancel_by_non_owner (run [Cancel userA 1 11] db_taken) 1
              (cancelled_row (new_row userA 7 1 10) 11) userB 12)
    as (H1 & H2 & H3); [reflexivity|simpl; lia|].
  split; [exact H1|]. split; [exact H2|].
  apply (H3 db_taken 1 (new_row userA 7 1 10) 13); [reflexivity|simpl; lia].
Defined.

Lemma cancel_already_cancelled db bid b u now :
  bookings db !! bid = Some b →
  user_id (user b) = user_id u →
  status b = cancelled →
  cancel u bid now db = (AlreadyCancelled, db).
Proof.
  intros Hb Hu Hs. unfold cancel. rewrite Hb.
  rewrite decide_False by (intros Hne; by apply Hne).
  by rewrite decide_True.
Qed.

(** How a cancellation that is answered 200 changes the ledger. *)
Lemma cancel_ok_inv u bid now db :
  status_code (cancel u bid now db).1 = HTTP_200_OK →
  ∃ b,
    bookings db !! bid = Some b ∧
    user_id (user b) = user_id u ∧
    status b = booked ∧
    cancel u bid now db =
      ({| status_code := HTTP_200_OK;
          data := MsgBookingCancelled
                    (BookingSerializer.data (cancelled_row b now) (shows db !! show b)
                       {| shows := shows db;
                          bookings := <[bid := cancelled_row b now]> (bookings db);
                          booking_seq := booking_seq db |}) |},
       {| shows := shows db;
          bookings := <[bid := cancelled_row b now]> (bookings db);
          booking_seq := booking_seq db |}).
Proof.
  unfold CancelBookingView.post.
  destruct (bookings db !! bid) as [b|] eqn:Hb; [|discriminate].
  case_decide as Hu; [discriminate|].
  case_decide as Hs; [discriminate|].
  unfold Booking_save; simpl.
  destruct (exists_ (unique_together_conflicts _ _ _)) eqn:Hq; [discriminate|].
  simpl. intros _. exists b. repeat split; try done.
  by destruct (status b).
Qed.

(** X19: a cancel request by the owner for a booking that is already
    cancelled is answered [AlreadyCancelled] and leaves the ledger as it was;
    and when a first cancel request by the owner is accepted, a second one for
    the same booking is answered [AlreadyCancelled] and changes nothing. *)
Theorem cancel_twice (db : Db) (bid : Z) (u : User) (now1 now2 : Z) :
  (∀ b, bookings db !! bid = Some b →
        user_id (user b) = user_id u →
        status b = cancelled →
        cancel u bid now1 db = (AlreadyCancelled, db)) ∧
  (status_code (cancel u bid now1 db).1 = HTTP_200_OK →
   cancel u bid now2 (cancel u bid now1 db).2
     = (AlreadyCancelled, (cancel u bid now1 db).2)).
Proof.
  split; [intros b; apply cancel_already_cancelled|].
  intros Hok.
  destruct (cancel_ok_inv u bid now1 db Hok) as (b & Hb & Hu & Hs & ->).
  simpl. apply (cancel_already_cancelled _ bid (cancelled_row b now1)).
  - simpl. apply lookup_insert_eq.
  - exact Hu.
  - reflexivity.
Qed.

Lemma cancel_twice_witness :
  status_code (cancel userA 1 11 db_taken).1 = HTTP_200_OK ∧
  cancel userA 1 12 (cancel userA 1 11 db_taken).2
    = (AlreadyCancelled, (cancel userA 1 11 db_taken).2) ∧
  cancel userA 1 13 (cancel userA 1 11 db_taken).2
    = (AlreadyCancelled, (cancel userA 1 11 db_taken).2).
Proof.
  split; [reflexivity|]. split.
  - apply (cancel_twice db_taken 1 userA 11 12). reflexivity.
  - apply (proj1 (cancel_twice (cancel userA 1 11 db_taken).2 1 userA 13 13)
             (cancelled_row (new_row userA 7 1 10) 11)); reflexivity.
Defined.

(** C8: two cancel calls by the owner of which the first is refused.  After
    A booked and cancelled seat 1 of show 7 and B booked it, B owns booking 2
    and it is [booked]; B's cancel request is answered 500, the [save()]
    being refused by the unique constraint as booking 1 holds the triple
    (show 7, seat 1, [cancelled]), and nothing changes; B's second request is
    answered 500 again, not [AlreadyCancelled]. *)
Theorem owner_cancel_refused_twice :
  db_rebooked = run [Book userA 7 (FieldInt 1) 10; Cancel userA 1 11;
                     Book userB 7 (FieldInt 1) 12] db_empty ∧
  bookings db_rebooked !! 2 = Some (new_row userB 7 1 12) ∧
  cancel userB 2 20 db_rebooked = (CancellationFailed IntegrityError, db_rebooked) ∧
  cancel userB 2 21 (cancel userB 2 20 db_rebooked).2
    = (CancellationFailed IntegrityError, db_rebooked) ∧
  status_code (CancellationFailed IntegrityError) ≠ HTTP_200_OK ∧
  CancellationFailed IntegrityError ≠ AlreadyCancelled.
Proof.
  split; [reflexivity|]. split; [reflexivity|].
  split; [vm_compute; reflexivity|]. split; [vm_compute; reflexivity|].
  split; discriminate.
Qed.

(** X18: when the owner's cancel request for a [booked] booking is accepted,
    the stored row has status [cancelled] and its [updated_at] is the time of
    the request, while its user, show, seat number, [created_at] and primary
    key are as before; no row is removed, no other row changes and the shows
    are as before; the body is the serializer's rendering, show details and
    username, of that updated row on the updated ledger. *)
Theorem successful_cancel (db : Db) (bid : Z) (b : Booking) (u : User) (now : Z) :
  bookings db !! bid = Some b →
  status b = booked →
  user_id (user b) = user_id u →
  status_code (cancel u bid now db).1 = HTTP_200_OK →
  ∃ b',
    bookings (cancel u bid now db).2 !! bid = Some b' ∧
    status b' = cancelled ∧
    updated_at b' = now ∧
    user b' = user b ∧ show b' = show b ∧ seat_number b' = seat_number b ∧
    created_at b' = created_at b ∧
    dom (bookings (cancel u bid now db).2) = dom (bookings db) ∧
    (∀ j, j ≠ bid → bookings (cancel u bid now db).2 !! j = bookings db !! j) ∧
    shows (cancel u bid now db).2 = shows db ∧
    data (cancel u bid now db).1
      = MsgBookingCancelled
          (BookingSerializer.data b' (shows db !! show b) (cancel u bid now db).2).
Proof.
  intros Hb Hs Hu Hok.
  destruct (cancel_ok_inv u bid now db Hok) as (b0 & Hb0 & _ & _ & ->).
  assert (b0 = b) as -> by congruence.
  exists (cancelled_row b now). simpl.
  split; [apply lookup_insert_eq|]. do 6 (split; [done|]).
  split.
  { rewrite dom_insert_L.
    apply subseteq_union_1_L, singleton_subseteq_l, elem_of_dom. by exists b. }
  split; [intros j Hj; by rewrite lookup_insert_ne|done].
Qed.

Lemma successful_cancel_witness :
  ∃ b',
    bookings (cancel userA 1 12 db_taken).2 !! 1 = Some b' ∧
    status b' = cancelled ∧
    updated_at b' = 12 ∧
    user b' = userA ∧ show b' = 7 ∧ seat_number b' = 1 ∧
    created_at b' = 10 ∧
    dom (bookings (cancel userA 1 12 db_taken).2) = dom (bookings db_taken) ∧
    (∀ j, j ≠ 1 → bookings (cancel userA 1 12 db_taken).2 !! j = bookings db_taken !! j) ∧
    shows (cancel userA 1 12 db_taken).2 = shows db_taken ∧
    data (cancel userA 1 12 db_taken).1
      = MsgBookingCancelled
          (BookingSerializer.data b' (shows db_taken !! 7) (cancel userA 1 12 db_taken).2).
Proof.
  apply (successful_cancel db_taken 1 (new_row userA 7 1 10) userA 12); reflexivity.
Defined.

(** C9: what an accepted cancellation returns.  A's cancel request for
    booking 1 is answered 200 and the stored row is the cancelled one, but
    the booking in the body has the two fields [show_details] and [username]
    and nothing else: reading its [status], as the test of the cancellation
    does, or its [id], [seat_number] or [updated_at] finds no such key.  No
    rendering of [BookingSerializer] has them. *)
Theorem cancel_response_omits_booking_fields :
  status_code (cancel userA 1 12 db_taken).1 = HTTP_200_OK ∧
  bookings (cancel userA 1 12 db_taken).2 !! 1
    = Some (cancelled_row (new_row userA 7 1 10) 12) ∧
  (∃ j, booking_entry (data (cancel userA 1 12 db_taken).1) = Some j ∧
        keys j = ["show_details"; "username"] ∧
        getitem "username" j = Some (JStr "testuser1") ∧
        getitem "status" j = None ∧
        getitem "id" j = None ∧
        getitem "seat_number" j = None ∧
        getitem "updated_at" j = None) ∧
  (∀ d, keys (BookingData_json d) = ["show_details"; "username"] ∧
        getitem "status" (BookingData_json d) = None).
Proof.
  split; [reflexivity|]. split; [reflexivity|]. split.
  - eexists. split; [reflexivity|]. repeat split; reflexivity.
  - intros d. split; reflexivity.
Qed.

(** ** Booking, cancelling and booking again *)

(** C10: in a ledger without bookings, for a show with a single seat and two
    users A and B with different ids: A's request for seat 1 is accepted
    (booking 1); B's request for seat 1 is answered [SeatAlreadyBooked] and
    changes nothing; A's cancellation of booking 1 is accepted; B's next
    request for seat 1 is accepted (booking 2).  Booking 2 is then the one
    active booking of the seat, its user is B, and booking 1 is kept,
    cancelled, with user A. *)
Theorem rebook_by_other_user (shs : gmap Z Show) (sid : Z) (sh : Show)
    (A B : User) (t1 t2 t3 t4 : Z) :
  shs !! sid = Some sh →
  total_seats sh = 1 →
  user_id A ≠ user_id B →
  let r1 := book A sid (FieldInt 1) t1 (init shs) in
  let r2 := book B sid (FieldInt 1) t2 r1.2 in
  let r3 := cancel A 1 t3 r2.2 in
  let r4 := book B sid (FieldInt 1) t4 r3.2 in
  status_code r1.1 = HTTP_201_CREATED ∧
  r2.1 = SeatAlreadyBooked 1 ∧ r2.2 = r1.2 ∧
  status_code r3.1 = HTTP_200_OK ∧
  status_code r4.1 = HTTP_201_CREATED ∧
  bookings r4.2 = <[2 := new_row B sid 1 t4]>
                    {[1 := cancelled_row (new_row A sid 1 t1) t3]} ∧
  active_seat sid 1 r4.2 = {[2 := new_row B sid 1 t4]} ∧
  user (new_row B sid 1 t4) ≠ user (new_row A sid 1 t1).
Proof.
  intros Hsh Hone HAB. simpl.
  assert (1 ≤ 1 ≤ total_seats sh) as Hrange by lia.
  (* A books *)
  rewrite (book_success A sid 1 t1 (init shs) sh); [|done|done|..]; cycle 1.
  { unfold active_seat, filter_show_seat_status. simpl. apply map_filter_empty. }
  { unfold active_show, filter_show_status, count. simpl.
    rewrite map_filter_empty, map_size_empty. lia. }
  { apply lookup_empty. }
  simpl. rewrite insert_empty.
  (* B is turned away *)
  rewrite (book_seat_taken B sid 1 t2 _ sh 1 (new_row A sid 1 t1));
    [|done|done|apply lookup_singleton_eq|done..].
  simpl.
  (* A cancels *)
  rewrite (cancel_success A 1 t3 _ (new_row A sid 1 t1) sh);
    [|apply lookup_singleton_eq|done|done| |done]; cycle 1.
  { unfold unique_together_conflicts, filter_show_seat_status. simpl.
    rewrite map_filter_singleton, decide_False by (by intros (_ & _ & ?)).
    apply map_filter_empty. }
  simpl. rewrite insert_singleton_eq.
  (* B books *)
  rewrite (book_success B sid 1 t4 _ sh); [|done|done|..]; cycle 1.
  { unfold active_seat, filter_show_seat_status. simpl.
    by rewrite map_filter_singleton, decide_False by (by intros (_ & _ & ?)). }
  { unfold active_show, filter_show_status, count. simpl.
    rewrite map_filter_singleton, decide_False by (by intros (_ & ?)).
    rewrite map_size_empty. lia. }
  { simpl. by apply lookup_singleton_ne. }
  simpl. do 6 (split; [done|]). split.
  - unfold active_seat, filter_show_seat_status. simpl.
    rewrite map_filter_insert_True by done.
    rewrite map_filter_singleton, decide_False by (by intros (_ & _ & ?)).
    by rewrite insert_empty.
  - intros Heq. apply HAB. by rewrite Heq.
Qed.

Lemma rebook_by_other_user_witness :
  let r1 := book userA 7 (FieldInt 1) 10 db_empty in
  let r2 := book userB 7 (FieldInt 1) 11 r1.2 in
  let r3 := cancel userA 1 12 r2.2 in
  let r4 := book userB 7 (FieldInt 1) 13 r3.2 in
  status_code r1.1 = HTTP_201_CREATED ∧
  r2.1 = SeatAlreadyBooked 1 ∧ r2.2 = r1.2 ∧
  status_code r3.1 = HTTP_200_OK ∧
  status_code r4.1 = HTTP_201_CREATED ∧
  bookings r4.2 = <[2 := new_row userB 7 1 13]>
                    {[1 := cancelled_row (new_row userA 7 1 10) 12]} ∧
  active_seat 7 1 r4.2 = {[2 := new_row userB 7 1 13]} ∧
  user (new_row userB 7 1 13) ≠ user (new_row userA 7 1 10).
Proof.
  apply (rebook_by_other_user {[ 7 := show_1seat; 8 := show_10seats ]} 7 show_1seat
           userA userB 10 11 12 13); [reflexivity|reflexivity|simpl; lia].
Defined.

(** ** Rows are kept *)

Lemma step_keeps_rows o db : dom (bookings db) ⊆ dom (bookings (step o db).2).
Proof.
  destruct o as [u sid f now|u bid now]; simpl.
  - destruct (book_inv u sid f now db)
      as [[-> _]|(sh & seat & _ & _ & _ & _ & _ & ->)]; [done|].
    simpl. rewrite dom_insert_L. apply union_subseteq_r.
  - destruct (cancel_inv u bid now db) as [[-> _]|(b & _ & _ & _ & _ & ->)]; [done|].
    simpl. rewrite dom_insert_L. apply union_subseteq_r.
Qed.

(** No sequence of book and cancel requests removes a row of the booking
    table. *)
Lemma run_keeps_rows ops db : dom (bookings db) ⊆ dom (bookings (run ops db)).
Proof.
  revert db. induction ops as [|o ops IH]; intros db; simpl; [done|].
  etrans; [apply (step_keeps_rows o)|apply IH].
Qed.

(** A cancellation is refused whenever another row of the same show and seat
    is cancelled already: [save()] violates the unique constraint, the view
    answers 500 and the booking stays [booked]. *)
Lemma cancel_refused_by_unique_constraint db bid b j bj u now :
  bookings db !! bid = Some b →
  user_id (user b) = user_id u →
  status b = booked →
  j ≠ bid →
  bookings db !! j = Some bj →
  show bj = show b → seat_number bj = seat_number b → status bj = cancelled →
  cancel u bid now db = (CancellationFailed IntegrityError, db).
Proof.
  intros Hb Hu Hs Hj Hbj H1 H2 H3. unfold CancelBookingView.post. rewrite Hb.
  rewrite decide_False by (intros Hne; by apply Hne).
  rewrite decide_False by (by rewrite Hs).
  unfold Booking_save. simpl.
  assert (exists_ (unique_together_conflicts (Some bid) (cancelled_row b now)
                     (bookings db)) = true) as Hq.
  { apply exists_true. intros He.
    eapply (map_filter_empty_not_lookup _ _ j bj He).
    - simpl. congruence.
    - apply map_lookup_filter_Some. by split. }
  unfold cancelled_row in Hq. by rewrite Hq.
Qed.

(** C4: the second round of booking and cancelling the same seat does not go
    through.  A books seat 1 and cancels; B books seat 1 and cancels: the
    last request is answered 500, the [save()] being refused because booking
    1 already holds the triple (show, seat, [cancelled]) of the unique
    constraint, and booking 2 stays [booked]. *)
Theorem second_cancellation_refused :
  responses [Book userA 7 (FieldInt 1) 10; Cancel userA 1 11;
             Book userB 7 (FieldInt 1) 12; Cancel userB 2 13] db_empty !! 3%nat
    = Some (CancellationFailed IntegrityError) ∧
  map status_code
      (responses [Book userA 7 (FieldInt 1) 10; Cancel userA 1 11;
                  Book userB 7 (FieldInt 1) 12; Cancel userB 2 13] db_empty)
    = [201; 200; 201; 500] ∧
  bookings (run [Book userA 7 (FieldInt 1) 10; Cancel userA 1 11;
                 Book userB 7 (FieldInt 1) 12; Cancel userB 2 13] db_empty)
    = <[2 := new_row userB 7 1 12]> {[1 := cancelled_row (new_row userA 7 1 10) 11]}.
Proof. repeat split; vm_compute; reflexivity. Qed.

(** ** Requests in flight at the same time *)

(** A call that runs its five statements undisturbed is [book]. *)
Lemma book_steps_book u sid f now db :
  book_steps 5 (AtShowLookup u sid f now) db
    = (Returned (book u sid f now db).1, (book u sid f now db).2).
Proof.
  unfold book. simpl.
  destruct (shows db !! sid) as [sh|]; simpl; [|done].
  destruct (BookingCreateSerializer.is_valid sid f db) as [e|seat]; simpl; [done|].
  destruct (exists_ _); simpl; [done|].
  case_decide; simpl; [done|].
  by destruct (Booking_create u sid seat booked now db) as [e|[[pk b] db']].
Qed.

(** Whatever a statement does to the store is an accepted insert of a
    [booked] row for a seat without active booking. *)
Lemma book_step_inv c db :
  (book_step c db).2 = db ∨
  ∃ u sid seat now,
    active_seat sid seat db = ∅ ∧
    bookings db !! booking_seq db = None ∧
    (book_step c db).2 =
      {| shows := shows db;
         bookings := <[booking_seq db := new_row u sid seat now]> (bookings db);
         booking_seq := booking_seq db + 1 |}.
Proof.
  destruct c as [u sid f now|u sid sh f now|u sid sh seat now|u sid sh seat now
                |u sid sh seat now|r]; simpl.
  - destruct (shows db !! sid); by left.
  - destruct (BookingCreateSerializer.is_valid sid f db); by left.
  - destruct (exists_ _); by left.
  - case_decide; by left.
  - unfold Booking_create. case_decide as Hpk; [by left|].
    destruct (exists_ (unique_together_conflicts _ _ _)) eqn:Hu; [by left|].
    right. exists u, sid, seat, now. split; [|split; [by apply eq_None_not_Some|done]].
    apply exists_false in Hu. unfold unique_together_conflicts in Hu. simpl in Hu.
    rewrite map_filter_id in Hu; [done|]. intros i x _. simpl. discriminate.
  - by left.
Qed.

Lemma flight_step_active_seat i st sid seat :
  count (active_seat sid seat st.2) ≤ 1 →
  count (active_seat sid seat (flight_step i st).2) ≤ 1.
Proof.
  intros H. unfold flight_step. destruct (st.1 !! i) as [c|]; [|done]. simpl.
  destruct (book_step_inv c st.2)
    as [->|(u & sid' & seat' & now & Hfree & Hpk & ->)]; [done|].
  unfold active_seat, filter_show_seat_status, count in *. simpl.
  destruct (decide (sid' = sid ∧ seat' = seat)) as [[-> ->]|Hne].
  - rewrite size_filter_insert_fresh by done. rewrite Hfree, map_size_empty. lia.
  - rewrite filter_insert_fresh_not; [done..|]. simpl. intros (? & ? & _). by apply Hne.
Qed.

(** Under every schedule of the calls in flight a seat keeps at most one
    active booking: the unique index refuses the second insert. *)
Lemma run_schedule_active_seat sch st sid seat :
  count (active_seat sid seat st.2) ≤ 1 →
  count (active_seat sid seat (run_schedule sch st).2) ≤ 1.
Proof.
  revert st. induction sch as [|i sch IH]; intros st H; simpl; [done|].
  by apply IH, flight_step_active_seat.
Qed.

(** Served one after the other, requests for a free seat of a show with room
    are answered as the seat's first request is accepted and every later one is
    told the seat is taken. *)
Lemma book_in_turn_responses u us sid sh seat now db :
  shows db !! sid = Some sh →
  1 ≤ seat ≤ total_seats sh →
  active_seat sid seat db = ∅ →
  count (active_show sid db) < total_seats sh →
  bookings db !! booking_seq db = None →
  status_code <$> (book_in_turn (u :: us) sid seat now db).1
    = HTTP_201_CREATED :: (status_code <$> (const (SeatAlreadyBooked seat) <$> us)) ∧
  tail (book_in_turn (u :: us) sid seat now db).1
    = const (SeatAlreadyBooked seat) <$> us.
Proof.
  intros Hsh Hseat Hfree Hroom Hpk. simpl.
  rewrite (book_success u sid seat now db sh) by done. simpl.
  set (db1 := {| shows := shows db;
                 bookings := <[booking_seq db := new_row u sid seat now]> (bookings db);
                 booking_seq := booking_seq db + 1 |}).
  assert (∀ l, (book_in_turn l sid seat now db1).1 = const (SeatAlreadyBooked seat) <$> l
               ∧ (book_in_turn l sid seat now db1).2 = db1) as Hrest.
  { induction l as [|v l [IH1 IH2]]; [done|]. simpl.
    rewrite (book_seat_taken v sid seat now db1 sh (booking_seq db)
               (new_row u sid seat now)); [|done|done|apply lookup_insert_eq|done..].
    simpl. by rewrite IH1, IH2. }
  destruct (Hrest us) as [-> _]. done.
Qed.

(** C3: two requests for seat 1 of show 8 (ten seats, nothing booked), from
    users A and B, whose statements alternate.  Both pass the [exists()] and
    the [count()] checks before either inserts; A's insert is accepted, B's
    is refused by the unique index and B is answered 500 "Booking failed",
    which is neither [SeatAlreadyBooked] nor [ShowFull].  One active booking
    of the seat exists at the end. *)
Theorem racing_request_gets_500 :
  returned <$> (run_schedule [0; 1; 0; 1; 0; 1; 0; 1; 0; 1]%nat
                  ([AtShowLookup userA 8 (FieldInt 1) 10;
                    AtShowLookup userB 8 (FieldInt 1) 10], db_empty)).1
    = [Some {| status_code := HTTP_201_CREATED;
               data := MsgBookingSuccessful
                         (BookingSerializer.data (new_row userA 8 1 10) (Some show_10seats)
                            (book userA 8 (FieldInt 1) 10 db_empty).2) |};
       Some (BookingFailed IntegrityError)] ∧
  BookingFailed IntegrityError ≠ SeatAlreadyBooked 1 ∧
  BookingFailed IntegrityError ≠ ShowFull ∧
  count (active_seat 8 1
           (run_schedule [0; 1; 0; 1; 0; 1; 0; 1; 0; 1]%nat
              ([AtShowLookup userA 8 (FieldInt 1) 10;
                AtShowLookup userB 8 (FieldInt 1) 10], db_empty)).2) = 1.
Proof.
  split; [vm_compute; reflexivity|].
  split; [discriminate|]. split; [discriminate|]. vm_compute; reflexivity.
Qed.

(** * Further properties of the ledger *)

(** ** The history of a row *)

Lemma step_row o db i b :
  bookings db !! i = Some b →
  ∃ b', bookings (step o db).2 !! i = Some b' ∧
        user b' = user b ∧ show b' = show b ∧
        seat_number b' = seat_number b ∧ created_at b' = created_at b ∧
        (status b = cancelled → b' = b) ∧
        (status b' = booked → b' = b).
Proof.
  intros Hb. destruct o as [u sid f now|u bid now]; simpl.
  - destruct (book_inv u sid f now db)
      as [[-> _]|(sh & seat & _ & _ & _ & _ & Hpk & ->)]; [by exists b|].
    exists b. simpl. rewrite lookup_insert_ne by congruence. done.
  - destruct (cancel_inv u bid now db)
      as [[-> _]|(b0 & Hb0 & _ & Hs & _ & ->)]; [by exists b|].
    simpl. destruct (decide (bid = i)) as [->|Hne].
    + assert (b0 = b) as -> by congruence.
      exists (cancelled_row b now). rewrite lookup_insert_eq.
      repeat split; try done. intros Hc. congruence.
    + exists b. by rewrite lookup_insert_ne.
Qed.

Lemma run_row (ops : list Op) (db : Db) (i : Z) (b : Booking) :
  bookings db !! i = Some b →
  ∃ b', bookings (run ops db) !! i = Some b' ∧
        user b' = user b ∧ show b' = show b ∧
        seat_number b' = seat_number b ∧ created_at b' = created_at b ∧
        (status b = cancelled → b' = b) ∧
        (status b' = booked → b' = b).
Proof.
  revert db b. induction ops as [|o ops IH]; intros db b Hb; simpl.
  { by exists b. }
  destruct (step_row o db i b Hb) as (b1 & Hb1 & Hu & Hsh & Hn & Hc & Hcan & Hbk).
  destruct (IH _ b1 Hb1) as (b2 & Hb2 & Hu2 & Hsh2 & Hn2 & Hc2 & Hcan2 & Hbk2).
  exists b2. split; [done|]. repeat split; try congruence.
  - intros Hs. pose proof (Hcan Hs) as ->. by apply Hcan2.
  - intros Hs. pose proof (Hbk2 Hs) as ->. by apply Hbk.
Qed.

(** X1: a row of the booking table outlives every sequence of book and
    cancel requests under its primary key, with the same user, show, seat
    number and creation time; a row that is cancelled never changes again,
    and a row that is still booked has not changed at all. *)
Theorem booking_row_history (ops : list Op) (db : Db) (i : Z) (b : Booking) :
  bookings db !! i = Some b →
  ∃ b', bookings (run ops db) !! i = Some b' ∧
        user b' = user b ∧ show b' = show b ∧
        seat_number b' = seat_number b ∧ created_at b' = created_at b ∧
        (status b = cancelled → b' = b) ∧
        (status b' = booked → b' = b).
Proof. apply run_row. Qed.

Lemma booking_row_history_witness :
  ∃ b', bookings (run [Book userB 7 (FieldInt 1) 13; Cancel userB 2 14;
                       Cancel userA 1 15] db_rebooked) !! 1 = Some b' ∧
        user b' = userA ∧ show b' = 7 ∧ seat_number b' = 1 ∧ created_at b' = 10 ∧
        (status (cancelled_row (new_row userA 7 1 10) 11) = cancelled →
         b' = cancelled_row (new_row userA 7 1 10) 11) ∧
        (status b' = booked → b' = cancelled_row (new_row userA 7 1 10) 11).
Proof.
  apply (booking_row_history _ db_rebooked 1 (cancelled_row (new_row userA 7 1 10) 11)).
  reflexivity.
Defined.

(** ** Primary keys *)

Lemma step_pk_fresh o db : pk_fresh db → pk_fresh (step o db).2.
Proof.
  intros H. destruct o as [u sid f now|u bid now]; simpl.
  - destruct (book_inv u sid f now db)
      as [[-> _]|(sh & seat & _ & _ & _ & _ & Hpk & ->)]; [done|].
    intros i b. simpl. rewrite lookup_insert_Some.
    intros [[<- _]|[_ Hi]]; [lia|]. specialize (H i b Hi). lia.
  - destruct (cancel_inv u bid now db)
      as [[-> _]|(b0 & Hb0 & _ & _ & _ & ->)]; [done|].
    intros i b. simpl. rewrite lookup_insert_Some.
    intros [[<- _]|[_ Hi]]; [by apply (H bid b0)|by apply (H i b)].
Qed.

Lemma run_pk_fresh ops db : pk_fresh db → pk_fresh (run ops db).
Proof.
  revert db. induction ops as [|o ops IH]; intros db H; simpl; [done|].
  by apply IH, step_pk_fresh.
Qed.

Lemma pk_fresh_next db : pk_fresh db → bookings db !! booking_seq db = None.
Proof.
  intros H. destruct (bookings db !! booking_seq db) as [b|] eqn:Hb; [|done].
  specialize (H _ _ Hb). lia.
Qed.

Lemma pk_fresh_init shs : pk_fresh (init shs).
Proof. intros i b. simpl. by rewrite lookup_empty. Qed.

(** With the next primary key free, the insert of a request served on its own
    cannot fail. *)
Lemma book_not_500 u sid f now db :
  bookings db !! booking_seq db = None →
  status_code (book u sid f now db).1 ≠ HTTP_500_INTERNAL_SERVER_ERROR.
Proof.
  intros Hpk. unfold BookSeatView.post.
  destruct (shows db !! sid) as [sh|]; [|done].
  destruct (BookingCreateSerializer.is_valid sid f db) as [e|seat]; [done|].
  destruct (exists_ (filter_show_seat_status _ _ _ _)) eqn:Hex; [done|].
  case_decide; [done|].
  unfold Booking_create. rewrite Hpk.
  rewrite decide_False by (by intros [? ?]).
  unfold unique_together_conflicts. simpl.
  apply exists_false in Hex. rewrite Hex, map_filter_empty.
  by rewrite (proj2 (exists_false _) eq_refl).
Qed.

(** X2: on a ledger whose primary keys lie below the auto-increment counter,
    and after any sequence of book and cancel requests on it, a book request
    served on its own is never answered 500: the catch-all handler of
    [BookSeatView.post] is not reached. *)
Theorem book_never_500 (ops : list Op) (db : Db) (u : User) (sid : Z)
    (f : SeatField) (now : Z) :
  pk_fresh db →
  status_code (book u sid f now (run ops db)).1 ≠ HTTP_500_INTERNAL_SERVER_ERROR.
Proof.
  intros H. by apply book_not_500, pk_fresh_next, run_pk_fresh.
Qed.

Lemma book_never_500_witness :
  status_code (book userA 7 (FieldInt 1) 20
                 (run [Cancel userB 2 14] db_rebooked)).1
    ≠ HTTP_500_INTERNAL_SERVER_ERROR.
Proof.
  apply (book_never_500 [Cancel userB 2 14] db_rebooked).
  unfold db_rebooked, db_taken, db_empty.
  apply run_pk_fresh, run_pk_fresh, pk_fresh_init.
Defined.

(** ** Available seats *)

Section filter_size_drop.
Context {A : Type} (P : Z * A → Prop) `{!∀ x, Decision (P x)}.

Lemma size_filter_insert_drop (m : gmap Z A) i x y :
  m !! i = Some y → P (i, y) → ¬ P (i, x) →
  S (size (filter P (<[i:=x]> m))) = size (filter P m).
Proof.
  intros Hi Hy HP. rewrite map_filter_insert_False, map_filter_delete by done.
  assert (filter P m !! i = Some y) as Hf by by apply map_lookup_filter_Some.
  rewrite map_size_delete, Hf. simpl.
  assert (size (filter P m) ≠ 0%nat); [|lia].
  apply map_size_non_empty_iff. intros He. by rewrite He, lookup_empty in Hf.
Qed.

Lemma filter_insert_same (m : gmap Z A) i x y :
  m !! i = Some y → ¬ P (i, y) → ¬ P (i, x) →
  filter P (<[i:=x]> m) = filter P m.
Proof.
  intros Hi Hy HP. apply map_filter_insert_not'; [done|].
  intros z Hz. congruence.
Qed.
End filter_size_drop.

Lemma book_201_inv u sid f now db :
  status_code (book u sid f now db).1 = HTTP_201_CREATED →
  ∃ sh seat,
    shows db !! sid = Some sh ∧
    BookingCreateSerializer.is_valid sid f db = inr seat ∧
    active_seat sid seat db = ∅ ∧
    count (active_show sid db) < total_seats sh ∧
    bookings db !! booking_seq db = None ∧
    book u sid f now db =
      ({| status_code := HTTP_201_CREATED;
          data := MsgBookingSuccessful
                    (BookingSerializer.data (new_row u sid seat now) (Some sh)
                       {| shows := shows db;
                          bookings := <[booking_seq db := new_row u sid seat now]> (bookings db);
                          booking_seq := booking_seq db + 1 |}) |},
       {| shows := shows db;
          bookings := <[booking_seq db := new_row u sid seat now]> (bookings db);
          booking_seq := booking_seq db + 1 |}).
Proof.
  intros H. destruct (book_inv u sid f now db) as [[_ Hne]|Hok]; [done|exact Hok].
Qed.

(** X3: an accepted booking lowers the available seats of its show by exactly
    one, to a number that is not negative, and leaves those of every other
    show as they were; the 201 body names the requested show with the new
    availability and the requesting user. *)
Theorem booking_takes_one_seat (db : Db) (u : User) (sid : Z) (f : SeatField) (now : Z) :
  status_code (book u sid f now db).1 = HTTP_201_CREATED →
  ∃ sh,
    shows db !! sid = Some sh ∧
    ShowSerializer.get_available_seats sid sh (book u sid f now db).2
      = ShowSerializer.get_available_seats sid sh db - 1 ∧
    0 ≤ ShowSerializer.get_available_seats sid sh (book u sid f now db).2 ∧
    (∀ sid' sh', sid' ≠ sid →
       ShowSerializer.get_available_seats sid' sh' (book u sid f now db).2
         = ShowSerializer.get_available_seats sid' sh' db) ∧
    data (book u sid f now db).1
      = MsgBookingSuccessful
          {| show_details := Some (ShowSerializer.data sid sh (book u sid f now db).2);
             bd_username := username u |}.
Proof.
  intros H.
  destruct (book_201_inv u sid f now db H) as (sh & seat & Hsh & _ & _ & Hroom & Hpk & ->).
  exists sh. split; [done|]. simpl.
  unfold ShowSerializer.get_available_seats, active_show, filter_show_status, count in *.
  simpl. split; [|split; [|split]].
  - rewrite size_filter_insert_fresh by done. lia.
  - rewrite size_filter_insert_fresh by done. lia.
  - intros sid' sh' Hne. rewrite filter_insert_fresh_not; [done..|].
    simpl. intros [? _]. by apply Hne.
  - done.
Qed.

Lemma booking_takes_one_seat_witness :
  ∃ sh,
    shows db_taken !! 8 = Some sh ∧
    ShowSerializer.get_available_seats 8 sh (book userB 8 (FieldInt 3) 20 db_taken).2
      = ShowSerializer.get_available_seats 8 sh db_taken - 1 ∧
    0 ≤ ShowSerializer.get_available_seats 8 sh (book userB 8 (FieldInt 3) 20 db_taken).2 ∧
    (∀ sid' sh', sid' ≠ 8 →
       ShowSerializer.get_available_seats sid' sh' (book userB 8 (FieldInt 3) 20 db_taken).2
         = ShowSerializer.get_available_seats sid' sh' db_taken) ∧
    data (book userB 8 (FieldInt 3) 20 db_taken).1
      = MsgBookingSuccessful
          {| show_details := Some (ShowSerializer.data 8 sh (book userB 8 (FieldInt 3) 20 db_taken).2);
             bd_username := username userB |}.
Proof. apply (booking_takes_one_seat db_taken userB 8 (FieldInt 3) 20). reflexivity. Defined.

(** X4: an accepted cancellation raises the available seats of the booking's
    show by exactly one and leaves those of every other show as they were. *)
Theorem cancellation_returns_one_seat (db : Db) (u : User) (bid : Z) (now : Z) :
  status_code (cancel u bid now db).1 = HTTP_200_OK →
  ∃ b,
    bookings db !! bid = Some b ∧
    (∀ sh, ShowSerializer.get_available_seats (show b) sh (cancel u bid now db).2
             = ShowSerializer.get_available_seats (show b) sh db + 1) ∧
    (∀ sid' sh', sid' ≠ show b →
       ShowSerializer.get_available_seats sid' sh' (cancel u bid now db).2
         = ShowSerializer.get_available_seats sid' sh' db).
Proof.
  intros H.
  destruct (cancel_ok_inv u bid now db H) as (b & Hb & _ & Hs & ->).
  exists b. split; [done|]. simpl.
  unfold ShowSerializer.get_available_seats, filter_show_status, count. simpl. split.
  - intros sh.
    rewrite <- (size_filter_insert_drop _ (bookings db) bid (cancelled_row b now) b);
      [lia|done|done|]. simpl. by intros [_ ?].
  - intros sid' sh' Hne.
    rewrite (filter_insert_same _ (bookings db) bid (cancelled_row b now) b);
      [done|done| |]; simpl; intros [? _]; by apply Hne.
Qed.

Lemma cancellation_returns_one_seat_witness :
  ∃ b,
    bookings db_taken !! 1 = Some b ∧
    (∀ sh, ShowSerializer.get_available_seats (show b) sh (cancel userA 1 12 db_taken).2
             = ShowSerializer.get_available_seats (show b) sh db_taken + 1) ∧
    (∀ sid' sh', sid' ≠ show b →
       ShowSerializer.get_available_seats sid' sh' (cancel userA 1 12 db_taken).2
         = ShowSerializer.get_available_seats sid' sh' db_taken).
Proof. apply (cancellation_returns_one_seat db_taken userA 1 12). reflexivity. Defined.

(** X5: a cancellation that is accepted frees the seat.  For a booking whose
    show exists and whose seat number lies within 1 and the show's total, on a
    ledger with fresh primary keys, where the seat has no second active
    booking and the show is not over capacity, the next request for the
    cancelled booking's seat is accepted, whoever sends it. *)
Theorem cancel_frees_seat (db : Db) (bid : Z) (b : Booking) (sh : Show)
    (u v : User) (now now' : Z) :
  bookings db !! bid = Some b →
  shows db !! show b = Some sh →
  1 ≤ seat_number b ≤ total_seats sh →
  count (active_seat (show b) (seat_number b) db) ≤ 1 →
  count (active_show (show b) db) ≤ total_seats sh →
  pk_fresh db →
  status_code (cancel u bid now db).1 = HTTP_200_OK →
  status_code (book v (show b) (FieldInt (seat_number b)) now'
                 (cancel u bid now db).2).1 = HTTP_201_CREATED.
Proof.
  intros Hb Hsh Hseat Huniq Hcap Hpk Hok.
  destruct (cancel_ok_inv u bid now db Hok) as (b0 & Hb0 & _ & Hs & ->).
  assert (b0 = b) as -> by congruence. simpl.
  rewrite (book_success v (show b) (seat_number b) now' _ sh); [done|done|done|..].
  - unfold active_seat, filter_show_seat_status, count in *. simpl.
    apply map_size_empty_inv.
    pose proof (size_filter_insert_drop
      (λ kv : Z * Booking, show kv.2 = show b ∧ seat_number kv.2 = seat_number b
                           ∧ status kv.2 = booked)
      (bookings db) bid (cancelled_row b now) b Hb) as Hd.
    simpl in Hd. specialize (Hd (conj eq_refl (conj eq_refl Hs))).
    assert (¬ (show b = show b ∧ seat_number b = seat_number b ∧ cancelled = booked))
      as Hn by (by intros (_ & _ & ?)).
    specialize (Hd Hn). lia.
  - unfold active_show, filter_show_status, count in *. simpl.
    pose proof (size_filter_insert_drop
      (λ kv : Z * Booking, show kv.2 = show b ∧ status kv.2 = booked)
      (bookings db) bid (cancelled_row b now) b Hb) as Hd.
    simpl in Hd. specialize (Hd (conj eq_refl Hs)).
    assert (¬ (show b = show b ∧ cancelled = booked)) as Hn by (by intros (_ & ?)).
    specialize (Hd Hn). lia.
  - simpl. rewrite lookup_insert_ne.
    + by apply pk_fresh_next.
    + intros ->. specialize (Hpk _ _ Hb). lia.
Qed.

Lemma cancel_frees_seat_witness :
  status_code (book userB 7 (FieldInt 1) 21 (cancel userA 1 20 db_taken).2).1
    = HTTP_201_CREATED.
Proof.
  apply (cancel_frees_seat db_taken 1 (new_row userA 7 1 10) show_1seat
           userA userB 20 21).
  - reflexivity.
  - reflexivity.
  - simpl. lia.
  - vm_compute. discriminate.
  - vm_compute. discriminate.
  - unfold db_taken, db_empty. apply run_pk_fresh, pk_fresh_init.
  - reflexivity.
Defined.

(** ** The caller's bookings *)

Lemma step_my_bookings_other o db v :
  user_id (requester o) ≠ user_id v →
  MyBookingsView.get_queryset v (step o db).2 = MyBookingsView.get_queryset v db.
Proof.
  intros Hv. unfold MyBookingsView.get_queryset.
  destruct o as [u sid f now|u bid now]; simpl in *.
  - destruct (book_inv u sid f now db)
      as [[-> _]|(sh & seat & _ & _ & _ & _ & Hpk & ->)]; [done|].
    simpl. by rewrite filter_insert_fresh_not.
  - destruct (cancel_inv u bid now db)
      as [[-> _]|(b & Hb & Hu & _ & _ & ->)]; [done|].
    simpl. apply (filter_insert_same _ (bookings db) bid (cancelled_row b now) b);
      [done|simpl; congruence|simpl; congruence].
Qed.

(** X6: the rows a user sees under my-bookings are not changed by the book
    and cancel requests of other users, however many. *)
Theorem my_bookings_isolated (ops : list Op) (db : Db) (v : User) :
  Forall (λ o, user_id (requester o) ≠ user_id v) ops →
  MyBookingsView.get_queryset v (run ops db) = MyBookingsView.get_queryset v db.
Proof.
  revert db. induction ops as [|o ops IH]; intros db H; simpl; [done|].
  apply Forall_cons in H as [Ho Hops].
  by rewrite IH, step_my_bookings_other.
Qed.

Lemma my_bookings_isolated_witness :
  MyBookingsView.get_queryset userA
      (run [Book userB 8 (FieldInt 2) 20; Cancel userB 1 21; Cancel userB 2 22] db_taken)
    = MyBookingsView.get_queryset userA db_taken.
Proof.
  apply (my_bookings_isolated _ db_taken userA).
  repeat apply Forall_cons_2; [simpl; lia..|apply Forall_nil_2].
Defined.

(** X7: an accepted booking adds exactly one row to the requester's
    my-bookings, the new booking, under a key that was not listed; and a row
    that is listed stays listed, with its show and seat, after any sequence of
    book and cancel requests, cancelled or not. *)
Theorem my_bookings_history (db : Db) (u : User) :
  (∀ sid f now,
     status_code (book u sid f now db).1 = HTTP_201_CREATED →
     ∃ seat,
       BookingCreateSerializer.is_valid sid f db = inr seat ∧
       MyBookingsView.get_queryset u db !! booking_seq db = None ∧
       MyBookingsView.get_queryset u (book u sid f now db).2
         = <[booking_seq db := new_row u sid seat now]> (MyBookingsView.get_queryset u db)) ∧
  (∀ ops i b,
     MyBookingsView.get_queryset u db !! i = Some b →
     ∃ b', MyBookingsView.get_queryset u (run ops db) !! i = Some b' ∧
           show b' = show b ∧ seat_number b' = seat_number b).
Proof.
  unfold MyBookingsView.get_queryset. split.
  - intros sid f now H.
    destruct (book_201_inv u sid f now db H) as (sh & seat & _ & Hv & _ & _ & Hpk & ->).
    exists seat. split; [done|]. split.
    + apply map_lookup_filter_None. by left.
    + simpl. by rewrite map_filter_insert_True.
  - intros ops i b [Hb Hu]%map_lookup_filter_Some. simpl in Hu.
    destruct (run_row ops db i b Hb) as (b' & Hb' & Hu' & Hs' & Hn' & _).
    exists b'. split; [|done]. apply map_lookup_filter_Some. split; [done|].
    simpl. by rewrite Hu'.
Qed.

Lemma my_bookings_history_witness :
  (∃ seat,
     BookingCreateSerializer.is_valid 8 (FieldInt 4) db_taken = inr seat ∧
     MyBookingsView.get_queryset userA db_taken !! booking_seq db_taken = None ∧
     MyBookingsView.get_queryset userA (book userA 8 (FieldInt 4) 20 db_taken).2
       = <[booking_seq db_taken := new_row userA 8 seat 20]>
           (MyBookingsView.get_queryset userA db_taken)) ∧
  (∃ b', MyBookingsView.get_queryset userA
           (run [Cancel userA 1 21; Book userB 7 (FieldInt 1) 22] db_taken) !! 1 = Some b' ∧
         show b' = show (new_row userA 7 1 10) ∧
         seat_number b' = seat_number (new_row userA 7 1 10)).
Proof.
  destruct (my_bookings_history db_taken userA) as [H1 H2]. split.
  - apply (H1 8 (FieldInt 4) 20). reflexivity.
  - apply (H2 [Cancel userA 1 21; Book userB 7 (FieldInt 1) 22] 1 (new_row userA 7 1 10)).
    reflexivity.
Defined.

(** ** Requests that are turned away *)

(** X8: a book or cancel request that is answered neither 200 nor 201 leaves
    the ledger exactly as it was. *)
Theorem rejected_request_changes_nothing (o : Op) (db : Db) :
  status_code (step o db).1 ≠ HTTP_200_OK →
  status_code (step o db).1 ≠ HTTP_201_CREATED →
  (step o db).2 = db.
Proof.
  intros H200 H201. destruct o as [u sid f now|u bid now]; simpl in *.
  - destruct (book_inv u sid f now db)
      as [[Heq _]|(sh & seat & _ & _ & _ & _ & _ & Heq)]; [done|].
    rewrite Heq in H201. done.
  - revert H200. unfold CancelBookingView.post.
    destruct (bookings db !! bid) as [b|]; [|done].
    case_decide; [done|]. case_decide; [done|].
    by destruct (Booking_save _ _ _ _) as [e|[b' db']].
Qed.

Lemma rejected_request_changes_nothing_witness :
  (step (Cancel userB 2 20) db_rebooked).2 = db_rebooked ∧
  (step (Book userA 7 (FieldInt 2) 20) db_rebooked).2 = db_rebooked.
Proof.
  split.
  - apply (rejected_request_changes_nothing (Cancel userB 2 20) db_rebooked);
      vm_compute; discriminate.
  - apply (rejected_request_changes_nothing (Book userA 7 (FieldInt 2) 20) db_rebooked);
      vm_compute; discriminate.
Defined.

(** X9: the show is looked up before the body is read: for a show that does
    not exist the answer is 404 whatever the body holds, and so the
    serializer's own "Invalid show" error never reaches a client. *)
Theorem show_lookup_comes_first (db : Db) (u : User) (sid : Z) (f : SeatField) (now : Z) :
  data (book u sid f now db).1 ≠ SerializerErrors InvalidShow ∧
  (shows db !! sid = None → book u sid f now db = (ShowNotFound, db)).
Proof.
  unfold BookSeatView.post. split.
  - destruct (shows db !! sid) as [sh|] eqn:Hsh; [|done].
    unfold BookingCreateSerializer.is_valid, BookingCreateSerializer.validate_seat_number,
      BookingCreateSerializer.seat_number_field.
    destruct f as [| |n]; simpl; [done|done|].
    case_decide; [done|]. rewrite Hsh. case_decide; [done|].
    destruct (exists_ _); [done|]. case_decide; [done|].
    by destruct (Booking_create u sid n booked now db) as [e|[[pk b] db']].
  - by intros ->.
Qed.

Lemma show_lookup_comes_first_witness :
  data (book userA 99 FieldNotInteger 20 db_taken).1 ≠ SerializerErrors InvalidShow ∧
  book userA 99 FieldNotInteger 20 db_taken = (ShowNotFound, db_taken).
Proof.
  destruct (show_lookup_comes_first db_taken userA 99 FieldNotInteger 20) as [H1 H2].
  split; [exact H1|]. apply H2. reflexivity.
Defined.

(** X10: for a booking whose show exists, a cancel request is answered 500
    exactly when it comes from the owner, the booking is still booked, and
    another row of the same show and seat is cancelled already; the ledger is
    then left as it was, the booking still booked. *)
Theorem cancel_500_iff (db : Db) (bid : Z) (b : Booking) (sh : Show) (u : User) (now : Z) :
  bookings db !! bid = Some b →
  shows db !! show b = Some sh →
  (status_code (cancel u bid now db).1 = HTTP_500_INTERNAL_SERVER_ERROR ↔
   user_id (user b) = user_id u ∧ status b = booked ∧
   ∃ j bj, j ≠ bid ∧ bookings db !! j = Some bj ∧
           show bj = show b ∧ seat_number bj = seat_number b ∧
           status bj = cancelled) ∧
  (status_code (cancel u bid now db).1 = HTTP_500_INTERNAL_SERVER_ERROR →
   (cancel u bid now db).2 = db).
Proof.
  intros Hb Hsh.
  assert (status_code (cancel u bid now db).1 = HTTP_500_INTERNAL_SERVER_ERROR →
          user_id (user b) = user_id u ∧ status b = booked ∧
          (∃ j bj, j ≠ bid ∧ bookings db !! j = Some bj ∧
                   show bj = show b ∧ seat_number bj = seat_number b ∧
                   status bj = cancelled)) as Hfwd.
  { unfold CancelBookingView.post. rewrite Hb.
    case_decide as Hu; [done|]. case_decide as Hs; [done|].
    unfold Booking_save. simpl.
    destruct (exists_ (unique_together_conflicts _ _ _)) eqn:Hq.
    - intros _. split; [done|]. split; [by destruct (status b)|].
      apply exists_true, map_choose in Hq as (j & bj & Hj).
      apply map_lookup_filter_Some in Hj as [Hj Hne]. simpl in Hne.
      apply map_lookup_filter_Some in Hj as [Hj (H1 & H2 & H3)]. simpl in *.
      exists j, bj. repeat split; try done. congruence.
    - done. }
  split; [split; [exact Hfwd|]|].
  - intros (Hu & Hs & j & bj & Hj & Hbj & H1 & H2 & H3).
    by rewrite (cancel_refused_by_unique_constraint db bid b j bj u now).
  - intros H. destruct (Hfwd H) as (Hu & Hs & j & bj & Hj & Hbj & H1 & H2 & H3).
    by rewrite (cancel_refused_by_unique_constraint db bid b j bj u now).
Qed.

Lemma cancel_500_iff_witness :
  (status_code (cancel userB 2 20 db_rebooked).1 = HTTP_500_INTERNAL_SERVER_ERROR ↔
   user_id (user (new_row userB 7 1 12)) = user_id userB ∧
   status (new_row userB 7 1 12) = booked ∧
   ∃ j bj, j ≠ 2 ∧ bookings db_rebooked !! j = Some bj ∧
           show bj = show (new_row userB 7 1 12) ∧
           seat_number bj = seat_number (new_row userB 7 1 12) ∧
           status bj = cancelled) ∧
  (status_code (cancel userB 2 20 db_rebooked).1 = HTTP_500_INTERNAL_SERVER_ERROR →
   (cancel userB 2 20 db_rebooked).2 = db_rebooked).
Proof.
  apply (cancel_500_iff db_rebooked 2 (new_row userB 7 1 12) show_1seat userB 20);
    reflexivity.
Defined.

(** ** Seats and capacity *)

Lemma size_map_to_set_inj {A} (f : A → Z) (m : gmap Z A) :
  (∀ i j x y, m !! i = Some x → m !! j = Some y → f x = f y → i = j) →
  size (map_to_set (λ _ x, f x) m : gset Z) = size m.
Proof.
  induction m as [|i x m Hi IH] using map_ind; intros Hinj.
  { by rewrite map_to_set_empty, size_empty, map_size_empty. }
  rewrite map_to_set_insert_L by done.
  rewrite size_union, size_singleton, map_size_insert_None by
    (try done; apply disjoint_singleton_l; intros (j & y & Hj & Hy)%elem_of_map_to_set;
     assert (j = i) as ->
       by (apply (Hinj j i y x); [rewrite lookup_insert_ne; [done|congruence]
                                  |apply lookup_insert_eq|done]);
     congruence).
  rewrite IH; [done|].
  intros j k y z Hj Hk Hf. apply (Hinj j k y z); [| |done].
  - rewrite lookup_insert_ne; [done|congruence].
  - rewrite lookup_insert_ne; [done|congruence].
Qed.

Lemma taken_seats_size sid db :
  active_unique db → size (taken_seats sid db) = size (active_show sid db).
Proof.
  intros Hu. unfold taken_seats. apply size_map_to_set_inj.
  intros i j x y [Hi [Hxs Hxb]]%map_lookup_filter_Some
                 [Hj [Hys Hyb]]%map_lookup_filter_Some Hf. simpl in *.
  apply (size_le_1_lookup (active_seat sid (seat_number x) db) i j x y).
  - specialize (Hu sid (seat_number x)). unfold count in Hu. lia.
  - by apply map_lookup_filter_Some.
  - by apply map_lookup_filter_Some.
Qed.

Lemma taken_seats_range sid sh db :
  seats_in_range db → shows db !! sid = Some sh →
  taken_seats sid db ⊆ list_to_set (seqZ 1 (total_seats sh)).
Proof.
  intros Hr Hsh seat (i & b & [Hb [Hs Hst]]%map_lookup_filter_Some & <-)%elem_of_map_to_set.
  simpl in *. apply elem_of_list_to_set, elem_of_seqZ.
  assert (shows db !! show b = Some sh) as Hsh' by by rewrite Hs.
  specialize (Hr i b sh Hb Hst Hsh'). lia.
Qed.

Lemma size_seat_range (n : Z) :
  size (list_to_set (seqZ 1 n) : gset Z) = Z.to_nat n.
Proof. rewrite size_list_to_set by apply NoDup_seqZ. apply length_seqZ. Qed.

(** With at most one active booking per seat and every active seat within
    its show, the active bookings of a show cannot outnumber its seats. *)
Lemma active_show_le_capacity sid sh db :
  active_unique db → seats_in_range db → shows db !! sid = Some sh →
  0 ≤ total_seats sh →
  count (active_show sid db) ≤ total_seats sh.
Proof.
  intros Hu Hr Hsh Hpos. unfold count. rewrite <- (taken_seats_size sid db Hu).
  pose proof (subseteq_size _ _ (taken_seats_range sid sh db Hr Hsh)) as Hle.
  rewrite size_seat_range in Hle. lia.
Qed.

(** When they number as many as the seats, every seat is taken. *)
Lemma full_show_all_taken sid sh db seat :
  active_unique db → seats_in_range db → shows db !! sid = Some sh →
  count (active_show sid db) >= total_seats sh →
  1 ≤ seat ≤ total_seats sh →
  active_seat sid seat db ≠ ∅.
Proof.
  intros Hu Hr Hsh Hfull Hseat.
  assert (taken_seats sid db = list_to_set (seqZ 1 (total_seats sh))) as Heq.
  { apply set_subseteq_size_eq; [by apply taken_seats_range|].
    rewrite size_seat_range, (taken_seats_size sid db Hu). unfold count in Hfull. lia. }
  assert (seat ∈ taken_seats sid db) as Hin.
  { rewrite Heq. apply elem_of_list_to_set, elem_of_seqZ. lia. }
  apply elem_of_map_to_set in Hin as (i & b & [Hb [Hs Hst]]%map_lookup_filter_Some & Hn).
  simpl in *. intros He.
  by eapply (map_filter_empty_not_lookup _ _ i b He).
Qed.

Lemma is_valid_range db sid sh f seat :
  shows db !! sid = Some sh →
  BookingCreateSerializer.is_valid sid f db = inr seat →
  1 ≤ seat ≤ total_seats sh.
Proof.
  intros Hsh. unfold BookingCreateSerializer.is_valid,
    BookingCreateSerializer.validate_seat_number,
    BookingCreateSerializer.seat_number_field.
  destruct f as [| |n]; simpl; [done|done|].
  case_decide; [done|]. rewrite Hsh. case_decide; [done|].
  intros [= <-]. lia.
Qed.

Lemma insert_seats_in_range db u sid sh seat now :
  seats_in_range db →
  shows db !! sid = Some sh → 1 ≤ seat ≤ total_seats sh →
  bookings db !! booking_seq db = None →
  seats_in_range {| shows := shows db;
                    bookings := <[booking_seq db := new_row u sid seat now]> (bookings db);
                    booking_seq := booking_seq db + 1 |}.
Proof.
  intros Hr Hsh Hseat Hpk i b sh'. simpl. rewrite lookup_insert_Some.
  intros [[<- <-]|[_ Hi]] Hst Hsh'; simpl in *.
  - assert (sh' = sh) as -> by congruence. done.
  - by apply (Hr i b sh').
Qed.

Lemma insert_active_unique db u sid seat now :
  active_unique db →
  active_seat sid seat db = ∅ →
  bookings db !! booking_seq db = None →
  active_unique {| shows := shows db;
                   bookings := <[booking_seq db := new_row u sid seat now]> (bookings db);
                   booking_seq := booking_seq db + 1 |}.
Proof.
  intros Hu Hfree Hpk sid' seat'. specialize (Hu sid' seat').
  unfold active_seat, filter_show_seat_status, count in *. simpl.
  destruct (decide (sid = sid' ∧ seat = seat')) as [[-> ->]|Hne].
  - rewrite size_filter_insert_fresh by done. rewrite Hfree, map_size_empty. lia.
  - rewrite filter_insert_fresh_not; [done..|]. simpl. intros (? & ? & _). by apply Hne.
Qed.

Lemma step_seats_in_range o db : seats_in_range db → seats_in_range (step o db).2.
Proof.
  intros Hr. destruct o as [u sid f now|u bid now]; simpl.
  - destruct (book_inv u sid f now db)
      as [[-> _]|(sh & seat & Hsh & Hv & _ & _ & Hpk & ->)]; [done|].
    simpl. apply (insert_seats_in_range db u sid sh seat now); [done|done| |done].
    by apply (is_valid_range db sid sh f).
  - destruct (cancel_inv u bid now db)
      as [[-> _]|(b0 & Hb0 & _ & _ & _ & ->)]; [done|].
    intros i b sh. simpl. rewrite lookup_insert_Some.
    intros [[<- <-]|[_ Hi]] Hst Hsh; [done|]. by apply (Hr i b sh).
Qed.

Lemma run_seats_in_range ops db : seats_in_range db → seats_in_range (run ops db).
Proof.
  revert db. induction ops as [|o ops IH]; intros db H; simpl; [done|].
  by apply IH, step_seats_in_range.
Qed.

Lemma run_active_unique ops db : active_unique db → active_unique (run ops db).
Proof. intros H sid seat. apply run_active_seat, H. Qed.

Lemma seats_in_range_init shs : seats_in_range (init shs).
Proof. intros i b sh. simpl. by rewrite lookup_empty. Qed.

Lemma active_unique_init shs : active_unique (init shs).
Proof.
  intros sid seat. unfold active_seat, filter_show_seat_status, count. simpl.
  by rewrite map_filter_empty, map_size_empty.
Qed.

(** X11: on a ledger grown by book and cancel requests the capacity check
    never fires for a request served on its own.  If no seat has two active
    bookings and every active seat lies within its show, then after any
    sequence of requests served one after the other no book request served on
    its own is answered "Show is fully booked": a full show has every seat
    taken, so the request is stopped by the validation or by the seat
    check. *)
Theorem show_full_never_answered (ops : list Op) (db : Db) (u : User) (sid : Z)
    (f : SeatField) (now : Z) :
  seats_in_range db → active_unique db →
  (book u sid f now (run ops db)).1 ≠ ShowFull.
Proof.
  intros Hr Hu.
  apply (run_seats_in_range ops) in Hr. apply (run_active_unique ops) in Hu.
  generalize dependent (run ops db). clear db. intros db Hr Hu.
  unfold BookSeatView.post.
  destruct (shows db !! sid) as [sh|] eqn:Hsh; [|done].
  destruct (BookingCreateSerializer.is_valid sid f db) as [e|seat] eqn:Hv; [done|].
  destruct (exists_ (filter_show_seat_status _ _ _ _)) eqn:Hex; [done|].
  case_decide as Hfull.
  - exfalso. apply exists_false in Hex.
    apply (full_show_all_taken sid sh db seat); try done.
    by apply (is_valid_range db sid sh f).
  - by destruct (Booking_create u sid seat booked now db) as [e|[[pk b] db']].
Qed.

Lemma show_full_never_answered_witness :
  (book userB 7 (FieldInt 1) 20 (run [Book userA 7 (FieldInt 1) 10] db_empty)).1
    ≠ ShowFull.
Proof.
  apply (show_full_never_answered [Book userA 7 (FieldInt 1) 10] db_empty).
  - apply seats_in_range_init.
  - apply active_unique_init.
Defined.

(** ** Capacity and acceptance under interleaving *)

Lemma call_ok_shows db db' c : shows db' = shows db → call_ok db c → call_ok db' c.
Proof. intros H. destruct c; simpl; by rewrite ?H. Qed.

(** What the next statement of a call does: it leaves the store alone and
    does not turn the call into an accepted one, or it is the insert of a
    call at [AtCreate], which is then accepted. *)
Lemma book_step_cases c db :
  call_ok db c →
  call_ok db (book_step c db).1 ∧
  (((book_step c db).2 = db ∧ accepted (book_step c db).1 = accepted c) ∨
   (∃ u sid sh seat now,
      c = AtCreate u sid sh seat now ∧
      shows db !! sid = Some sh ∧ 1 ≤ seat ≤ total_seats sh ∧
      active_seat sid seat db = ∅ ∧
      bookings db !! booking_seq db = None ∧
      accepted (book_step c db).1 = true ∧
      (book_step c db).2 =
        {| shows := shows db;
           bookings := <[booking_seq db := new_row u sid seat now]> (bookings db);
           booking_seq := booking_seq db + 1 |})).
Proof.
  intros Hc.
  destruct c as [u sid f now|u sid sh f now|u sid sh seat now|u sid sh seat now
                |u sid sh seat now|r]; simpl in *.
  - destruct (shows db !! sid) eqn:Hsh; simpl; (split; [done|by left]).
  - destruct (BookingCreateSerializer.is_valid sid f db) as [e|seat] eqn:Hv; simpl;
      (split; [|by left]); [done|].
    split; [done|]. by apply (is_valid_range db sid sh f).
  - destruct (exists_ _); simpl; (split; [done|by left]).
  - case_decide; simpl; (split; [done|by left]).
  - destruct Hc as [Hsh Hseat]. unfold Booking_create.
    case_decide as Hpk; simpl; [split; [done|by left]|].
    destruct (exists_ (unique_together_conflicts _ _ _)) eqn:Hu; simpl;
      [split; [done|by left]|].
    split; [done|]. right. exists u, sid, sh, seat, now.
    split; [done|]. split; [done|]. split; [done|]. split.
    { apply exists_false in Hu. unfold unique_together_conflicts in Hu. simpl in Hu.
      rewrite map_filter_id in Hu; [done|]. intros i x _. simpl. discriminate. }
    split; [by apply eq_None_not_Some|]. by split.
  - split; [done|by left].
Qed.

Lemma flight_step_ok i st :
  Forall (call_ok st.2) st.1 → seats_in_range st.2 → active_unique st.2 →
  Forall (call_ok (flight_step i st).2) (flight_step i st).1 ∧
  shows (flight_step i st).2 = shows st.2 ∧
  seats_in_range (flight_step i st).2 ∧
  active_unique (flight_step i st).2.
Proof.
  intros Hcs Hr Hu. unfold flight_step.
  destruct (st.1 !! i) as [c|] eqn:Hi; [|done]. simpl.
  assert (call_ok st.2 c) as Hc by by eapply Forall_lookup_1.
  destruct (book_step_cases c st.2 Hc)
    as [Hc' [[-> _]|(u & sid & sh & seat & now & _ & Hsh & Hseat & Hfree & Hpk & _ & Heq)]].
  - split; [by apply Forall_insert|done].
  - rewrite Heq in *. simpl. split; [|split; [done|split]].
    + apply Forall_insert.
      * eapply Forall_impl; [exact Hcs|]. intros c0. by apply call_ok_shows.
      * revert Hc'. by apply call_ok_shows.
    + by apply (insert_seats_in_range st.2 u sid sh seat now).
    + by apply insert_active_unique.
Qed.

Lemma run_schedule_ok sch st :
  Forall (call_ok st.2) st.1 → seats_in_range st.2 → active_unique st.2 →
  Forall (call_ok (run_schedule sch st).2) (run_schedule sch st).1 ∧
  shows (run_schedule sch st).2 = shows st.2 ∧
  seats_in_range (run_schedule sch st).2 ∧
  active_unique (run_schedule sch st).2.
Proof.
  revert st. induction sch as [|i sch IH]; intros st Hcs Hr Hu; simpl; [done|].
  destruct (flight_step_ok i st Hcs Hr Hu) as (H1 & H2 & H3 & H4).
  destruct (IH _ H1 H3 H4) as (H5 & H6 & H7 & H8).
  split; [done|]. split; [congruence|done].
Qed.

(** X12: requests in flight cannot overbook.  Start from a ledger in which
    no seat has two active bookings and every active seat lies within its
    show, with calls that agree with the store on what they have read.
    Whatever the order in which the statements of the calls run, every seat
    keeps at most one active booking and the active bookings of a show of
    non-negative capacity never outnumber its seats. *)
Theorem interleaved_requests_respect_capacity (sch : list nat) (cs : list BookCall)
    (db : Db) (sid : Z) (sh : Show) :
  Forall (call_ok db) cs → seats_in_range db → active_unique db →
  shows db !! sid = Some sh → 0 ≤ total_seats sh →
  (∀ seat, count (active_seat sid seat (run_schedule sch (cs, db)).2) ≤ 1) ∧
  count (active_show sid (run_schedule sch (cs, db)).2) ≤ total_seats sh.
Proof.
  intros Hcs Hr Hu Hsh Hpos.
  destruct (run_schedule_ok sch (cs, db) Hcs Hr Hu) as (_ & Hshows & Hr' & Hu').
  split; [intros seat; apply Hu'|].
  apply active_show_le_capacity; try done. by rewrite Hshows.
Qed.

Lemma interleaved_requests_respect_capacity_witness :
  (∀ seat, count (active_seat 7 seat
             (run_schedule [0; 1; 2; 0; 1; 2; 0; 1; 2; 0; 1; 2; 2; 1; 0]%nat
                ([AtShowLookup userA 7 (FieldInt 1) 10;
                  AtShowLookup userB 7 (FieldInt 1) 10;
                  AtShowLookup userB 7 (FieldInt 1) 11], db_empty)).2) ≤ 1) ∧
  count (active_show 7
           (run_schedule [0; 1; 2; 0; 1; 2; 0; 1; 2; 0; 1; 2; 2; 1; 0]%nat
              ([AtShowLookup userA 7 (FieldInt 1) 10;
                AtShowLookup userB 7 (FieldInt 1) 10;
                AtShowLookup userB 7 (FieldInt 1) 11], db_empty)).2)
    ≤ total_seats show_1seat.
Proof.
  apply (interleaved_requests_respect_capacity _ _ db_empty 7 show_1seat).
  - repeat apply Forall_cons_2; [exact I..|apply Forall_nil_2].
  - apply seats_in_range_init.
  - apply active_unique_init.
  - reflexivity.
  - simpl. lia.
Defined.

Lemma accepted_count_insert cs i c c' :
  cs !! i = Some c →
  (accepted_count (<[i:=c']> cs) + (if accepted c then 1 else 0)
   = accepted_count cs + (if accepted c' then 1 else 0))%nat.
Proof.
  unfold accepted_count. revert i.
  induction cs as [|c0 cs IH]; intros [|i] Hi; simpl in *; try done.
  - injection Hi as ->. rewrite !filter_cons.
    destruct (accepted c), (accepted c'); repeat case_decide; simpl; (done || lia).
  - rewrite !filter_cons. specialize (IH i Hi).
    case_decide; simpl; lia.
Qed.

Lemma flight_step_accepted i st sid seat :
  Forall (call_ok st.2) st.1 → Forall (aims_at sid seat) st.1 →
  Forall (aims_at sid seat) (flight_step i st).1 ∧
  Z.of_nat (accepted_count (flight_step i st).1) - count (active_seat sid seat (flight_step i st).2)
    = Z.of_nat (accepted_count st.1) - count (active_seat sid seat st.2).
Proof.
  intros Hcs Haim. unfold flight_step.
  destruct (st.1 !! i) as [c|] eqn:Hi; [|done]. simpl.
  assert (call_ok st.2 c) as Hc by by eapply Forall_lookup_1.
  assert (aims_at sid seat c) as Ha by by eapply Forall_lookup_1.
  pose proof (accepted_count_insert st.1 i c (book_step c st.2).1 Hi) as Hcount.
  assert (aims_at sid seat (book_step c st.2).1) as Ha'.
  { destruct c; simpl in *; try done.
    - by destruct (shows st.2 !! show_id).
    - destruct Ha as [-> ->].
      destruct (BookingCreateSerializer.is_valid sid (FieldInt seat) st.2) as [e|n] eqn:Hv;
        [done|]. simpl. split; [done|].
      revert Hv. unfold BookingCreateSerializer.is_valid,
        BookingCreateSerializer.validate_seat_number,
        BookingCreateSerializer.seat_number_field. simpl.
      case_decide; [done|]. destruct (shows st.2 !! sid); [|done].
      case_decide; [done|]. by intros [= <-].
    - by destruct (exists_ _).
    - by case_decide.
    - by destruct (Booking_create u show_id seat0 booked now st.2) as [e|[[pk b] db']]. }
  split; [by apply Forall_insert|].
  destruct (book_step_cases c st.2 Hc)
    as [_ [[-> Hacc]|(u & sid' & sh & seat' & now & -> & _ & _ & Hfree & Hpk & Hacc & Heq)]].
  - rewrite Hacc in Hcount. destruct (accepted c); lia.
  - rewrite Hacc in Hcount. simpl in Hcount. destruct Ha as [-> ->].
    rewrite Heq. unfold active_seat, filter_show_seat_status, count in *. simpl.
    rewrite size_filter_insert_fresh by done. lia.
Qed.

Lemma run_schedule_accepted sch st sid seat :
  Forall (call_ok st.2) st.1 → seats_in_range st.2 → active_unique st.2 →
  Forall (aims_at sid seat) st.1 →
  Z.of_nat (accepted_count (run_schedule sch st).1)
    - count (active_seat sid seat (run_schedule sch st).2)
    = Z.of_nat (accepted_count st.1) - count (active_seat sid seat st.2).
Proof.
  revert st. induction sch as [|i sch IH]; intros st Hcs Hr Hu Haim; simpl; [done|].
  destruct (flight_step_ok i st Hcs Hr Hu) as (H1 & _ & H3 & H4).
  destruct (flight_step_accepted i st sid seat Hcs Haim) as [H5 H6].
  rewrite (IH _ H1 H3 H4 H5). exact H6.
Qed.

(** X13: no double booking under a race.  Requests for one seat of one show,
    in flight together and none answered yet, on a ledger in which no seat has
    two active bookings and every active seat lies within its show: whatever
    the order of their statements, at most one of them is answered 201, and
    none when the seat was taken from the start. *)
Theorem racing_requests_one_winner (sch : list nat) (cs : list BookCall) (db : Db)
    (sid seat : Z) :
  Forall (call_ok db) cs → Forall (aims_at sid seat) cs →
  accepted_count cs = 0%nat →
  seats_in_range db → active_unique db →
  Z.of_nat (accepted_count (run_schedule sch (cs, db)).1)
    + count (active_seat sid seat db) ≤ 1.
Proof.
  intros Hcs Haim H0 Hr Hu.
  pose proof (run_schedule_accepted sch (cs, db) sid seat Hcs Hr Hu Haim) as Heq.
  destruct (run_schedule_ok sch (cs, db) Hcs Hr Hu) as (_ & _ & _ & Hu').
  specialize (Hu' sid seat). simpl in Heq. rewrite H0 in Heq. lia.
Qed.

Lemma racing_requests_one_winner_witness :
  Z.of_nat (accepted_count
              (run_schedule [0; 1; 2; 0; 1; 2; 0; 1; 2; 0; 1; 2; 2; 1; 0]%nat
                 ([AtShowLookup userA 8 (FieldInt 1) 10;
                   AtShowLookup userB 8 (FieldInt 1) 10;
                   AtShowLookup userB 8 (FieldInt 1) 11], db_empty)).1)
    + count (active_seat 8 1 db_empty) ≤ 1.
Proof.
  apply (racing_requests_one_winner _ _ db_empty 8 1).
  - repeat apply Forall_cons_2; [exact I..|apply Forall_nil_2].
  - repeat apply Forall_cons_2; [by split..|apply Forall_nil_2].
  - reflexivity.
  - apply seats_in_range_init.
  - apply active_unique_init.
Defined.

(** X14: served one after the other, requests for a free, valid seat of a
    show with room, on a ledger whose next primary key is free, are answered
    201 for the first and "Seat is already booked" for every later one, and
    the later ones leave the ledger as the first one made it. *)
Theorem requests_served_in_turn (u : User) (us : list User) (sid : Z) (sh : Show)
    (seat now : Z) (db : Db) :
  shows db !! sid = Some sh →
  1 ≤ seat ≤ total_seats sh →
  active_seat sid seat db = ∅ →
  count (active_show sid db) < total_seats sh →
  bookings db !! booking_seq db = None →
  status_code <$> (book_in_turn (u :: us) sid seat now db).1
    = HTTP_201_CREATED :: (status_code <$> (const (SeatAlreadyBooked seat) <$> us)) ∧
  tail (book_in_turn (u :: us) sid seat now db).1
    = const (SeatAlreadyBooked seat) <$> us ∧
  (book_in_turn (u :: us) sid seat now db).2 = (book u sid (FieldInt seat) now db).2.
Proof.
  intros Hsh Hseat Hfree Hroom Hpk.
  destruct (book_in_turn_responses u us sid sh seat now db Hsh Hseat Hfree Hroom Hpk)
    as [H1 H2].
  split; [done|]. split; [done|]. simpl.
  rewrite (book_success u sid seat now db sh) by done. simpl.
  set (db1 := {| shows := shows db;
                 bookings := <[booking_seq db := new_row u sid seat now]> (bookings db);
                 booking_seq := booking_seq db + 1 |}).
  clear H1 H2. induction us as [|v us IH]; [done|]. simpl.
  rewrite (book_seat_taken v sid seat now db1 sh (booking_seq db)
             (new_row u sid seat now)); [|done|done|apply lookup_insert_eq|done..].
  done.
Qed.

Lemma requests_served_in_turn_witness :
  status_code <$> (book_in_turn [userA; userB; userB] 8 1 10 db_empty).1
    = HTTP_201_CREATED :: (status_code <$> (const (SeatAlreadyBooked 1) <$> [userB; userB])) ∧
  tail (book_in_turn [userA; userB; userB] 8 1 10 db_empty).1
    = const (SeatAlreadyBooked 1) <$> [userB; userB] ∧
  (book_in_turn [userA; userB; userB] 8 1 10 db_empty).2
    = (book userA 8 (FieldInt 1) 10 db_empty).2.
Proof.
  apply (requests_served_in_turn userA [userB; userB] 8 show_10seats 1 10 db_empty).
  - reflexivity.
  - simpl. lia.
  - reflexivity.
  - vm_compute. reflexivity.
  - reflexivity.
Defined.

(** ** Signup and login *)

(** X15: signup never gets through.  [UserRegistrationSerializer] is a plain
    [Serializer] whose declared fields are [password] and [passoword2], while
    [validate] reads [attrs["password2"]]: whatever the request holds and
    however the fields and the password validators judge it, the view either
    answers 400 with the field errors or lets [KeyError('password2')] escape.
    It never answers 201, never calls [create_user] and never issues tokens;
    a request without an entry [passoword2], like the one of the test suite,
    is answered 400 with "required" on that field. *)
Theorem signup_never_succeeds (CharField : string → option string)
    (validate_password : string → bool)
    (create_user : gmap string string → PyException + Account)
    (for_user : Account → Tokens) (data : gmap string string) :
  ((∃ errs, UserRegistrationView.post CharField validate_password create_user for_user data
            = Responded {| auth_status := HTTP_400_BAD_REQUEST;
                           auth_body := ErrValidation errs |}) ∨
   UserRegistrationView.post CharField validate_password create_user for_user data
     = Unhandled (KeyError "password2")) ∧
  (∀ create_user' for_user',
     UserRegistrationView.post CharField validate_password create_user' for_user' data
     = UserRegistrationView.post CharField validate_password create_user for_user data) ∧
  (data !! "passoword2" = None →
   ∃ errs, errs !! "passoword2" = Some ErrRequired ∧
           UserRegistrationView.post CharField validate_password create_user for_user data
           = Responded {| auth_status := HTTP_400_BAD_REQUEST;
                          auth_body := ErrValidation errs |}).
Proof.
  unfold UserRegistrationView.post, UserRegistrationSerializer.is_valid,
    UserRegistrationSerializer.to_internal_value.
  destruct (UserRegistrationSerializer.password CharField validate_password
              (data !! "password")) as [e|p] eqn:Hp;
    destruct (UserRegistrationSerializer.passoword2 CharField (data !! "passoword2"))
      as [e2|p2] eqn:Hp2.
  - split; [left; by eexists|]. split; [done|]. intros Hnone.
    rewrite Hnone in Hp2. simpl in Hp2. injection Hp2 as <-.
    eexists. split; [|done]. by rewrite lookup_insert_ne, lookup_singleton_eq.
  - split; [left; by eexists|]. split; [done|]. intros Hnone.
    rewrite Hnone in Hp2. discriminate.
  - split; [left; by eexists|]. split; [done|]. intros Hnone.
    rewrite Hnone in Hp2. simpl in Hp2. injection Hp2 as <-.
    eexists. split; [|done]. by rewrite lookup_singleton_eq.
  - assert (UserRegistrationSerializer.validate
              (<["password" := p]> {["passoword2" := p2]})
            = inl (RaisedException (KeyError "password2"))) as ->.
    { unfold UserRegistrationSerializer.validate.
      rewrite lookup_insert_eq.
      by rewrite lookup_insert_ne, lookup_singleton_ne. }
    split; [by right|]. split; [done|]. intros Hnone.
    rewrite Hnone in Hp2. discriminate.
Qed.

Lemma signup_never_succeeds_witness :
  ∃ errs, errs !! "passoword2" = Some ErrRequired ∧
          UserRegistrationView.post Some (λ _, true)
            (λ _, inl (KeyError "username"))
            (λ _, {| refresh := "r"; access := "a" |}) signup_data
          = Responded {| auth_status := HTTP_400_BAD_REQUEST;
                         auth_body := ErrValidation errs |}.
Proof.
  apply (signup_never_succeeds Some (λ _, true) (λ _, inl (KeyError "username"))
           (λ _, {| refresh := "r"; access := "a" |}) signup_data).
  reflexivity.
Defined.

(** X16: login answers 200 only for a username and a password that are both
    present and not empty and that [authenticate] accepts, and the body then
    carries the tokens, id, username and email of the user [authenticate]
    returned; a request in which either entry is missing or empty is answered
    400 without asking [authenticate]; credentials [authenticate] refuses are
    answered 401. *)
Theorem login_outcomes (authenticate : string → string → option Account)
    (for_user : Account → Tokens) (data : gmap string string) :
  (auth_status (UserLoginView.post authenticate for_user data) = HTTP_200_OK →
   ∃ name pw acc,
     data !! "username" = Some name ∧ name ≠ "" ∧
     data !! "password" = Some pw ∧ pw ≠ "" ∧
     authenticate name pw = Some acc ∧
     auth_body (UserLoginView.post authenticate for_user data)
       = MsgLoginSuccessful (for_user acc) (user_id (account acc))
           (username (account acc)) (email acc)) ∧
  (data !! "username" = None ∨ data !! "username" = Some "" ∨
   data !! "password" = None ∨ data !! "password" = Some "" →
   ∀ authenticate',
     UserLoginView.post authenticate' for_user data
     = {| auth_status := HTTP_400_BAD_REQUEST; auth_body := ErrMissingCredentials |}) ∧
  (∀ name pw,
     data !! "username" = Some name → name ≠ "" →
     data !! "password" = Some pw → pw ≠ "" →
     authenticate name pw = None →
     UserLoginView.post authenticate for_user data
     = {| auth_status := HTTP_401_UNAUTHORIZED; auth_body := ErrInvalidCredentials |}).
Proof.
  unfold UserLoginView.post, UserLoginView.not_.
  split; [|split].
  - destruct (data !! "username") as [name|]; simpl; [|done].
    case_bool_decide as Hn; simpl; [done|].
    destruct (data !! "password") as [pw|]; simpl; [|done].
    case_bool_decide as Hp; simpl; [done|].
    destruct (authenticate name pw) as [acc|] eqn:Ha; simpl; [|done].
    intros _. by exists name, pw, acc.
  - intros [-> | [-> | [-> | ->]]] authenticate'; simpl; try done.
    + by rewrite orb_true_r.
    + by rewrite orb_true_r.
  - intros name pw -> Hn -> Hp Ha. simpl.
    rewrite !bool_decide_eq_false_2 by done. simpl. by rewrite Ha.
Qed.

Lemma login_outcomes_witness :
  UserLoginView.post (λ _ _, None) (λ _, {| refresh := "r"; access := "a" |})
    {[ "username" := "testuser1"; "password" := "" ]}
    = {| auth_status := HTTP_400_BAD_REQUEST; auth_body := ErrMissingCredentials |} ∧
  UserLoginView.post (λ _ _, None) (λ _, {| refresh := "r"; access := "a" |})
    {[ "username" := "testuser1"; "password" := "wrong" ]}
    = {| auth_status := HTTP_401_UNAUTHORIZED; auth_body := ErrInvalidCredentials |} ∧
  ∃ name pw acc,
    ({[ "username" := "testuser1"; "password" := "testpass123" ]} : gmap string string)
      !! "username" = Some name ∧ name ≠ "" ∧
    ({[ "username" := "testuser1"; "password" := "testpass123" ]} : gmap string string)
      !! "password" = Some pw ∧ pw ≠ "" ∧
    (λ _ _, Some {| account := userA; email := "test1@example.com" |}) name pw = Some acc ∧
    auth_body (UserLoginView.post
                 (λ _ _, Some {| account := userA; email := "test1@example.com" |})
                 (λ _, {| refresh := "r"; access := "a" |})
                 {[ "username" := "testuser1"; "password" := "testpass123" ]})
      = MsgLoginSuccessful ((λ _, {| refresh := "r"; access := "a" |}) acc)
          (user_id (account acc)) (username (account acc)) (email acc).
Proof.
  split; [|split].
  - apply (proj1 (proj2 (login_outcomes (λ _ _, None)
                           (λ _, {| refresh := "r"; access := "a" |})
                           {[ "username" := "testuser1"; "password" := "" ]}))).
    right. right. right. reflexivity.
  - apply (proj2 (proj2 (login_outcomes (λ _ _, None)
                           (λ _, {| refresh := "r"; access := "a" |})
                           {[ "username" := "testuser1"; "password" := "wrong" ]}))
             "testuser1" "wrong"); (reflexivity || discriminate).
  - apply (proj1 (login_outcomes
                    (λ _ _, Some {| account := userA; email := "test1@example.com" |})
                    (λ _, {| refresh := "r"; access := "a" |})
                    {[ "username" := "testuser1"; "password" := "testpass123" ]})).
    reflexivity.
Defined.

(** ** The availability that is reported *)

(** X17: for a show whose active bookings do not outnumber its seats, the
    available seats computed for it after any sequence of book and cancel
    requests lie between 0 and the show's total. *)
Theorem available_seats_bounds (ops : list Op) (db : Db) (sid : Z) (sh : Show) :
  shows db !! sid = Some sh →
  count (active_show sid db) ≤ total_seats sh →
  0 ≤ ShowSerializer.get_available_seats sid sh (run ops db) ≤ total_seats sh.
Proof.
  intros Hsh Hcap. pose proof (run_active_show ops db sid sh Hsh Hcap) as H.
  unfold ShowSerializer.get_available_seats, active_show, count in *. lia.
Qed.

Lemma available_seats_bounds_witness :
  0 ≤ ShowSerializer.get_available_seats 7 show_1seat
        (run [Cancel userB 2 20; Book userA 7 (FieldInt 1) 21] db_rebooked)
    ≤ total_seats show_1seat.
Proof.
  apply (available_seats_bounds _ db_rebooked 7 show_1seat);
    [reflexivity|vm_compute; discriminate].
Defined.
